(** * Smart Contract Sentinel: the pattern scorer and the on-chain prober

    A shallow embedding of [analyzers/solidity_patterns.py] and
    [analyzers/onchain_checks.py], and the properties of the risk score
    and of the probe result that the specification states; then of the
    report writer, of [rugcheck.py] and of the [/scan], [/score] and
    [/last] handlers of [telegram_bot.py], with the edge behaviour the
    code shows. The file system is the dict from file name to content,
    a bot session the record of the replies delivered, the user data,
    the web3 calls made and the files.

    Python values are modelled as follows.
    - [str] is a [string] holding the UTF-8 encoding of the text; the
      substring test [in] gives the same answer on the encoding as on the
      code points, because UTF-8 is self-synchronising.
    - [int] is [Z].
    - a [dict] is the list of its items in insertion order, the keys
      being distinct.
    - a call that may raise returns an [outcome].
    - [str.lower] and [str.title] belong to the Python runtime and are
      taken as parameters of the development; [ascii_lower] and
      [ascii_title] are the instances used to run the definitions. *)

From Stdlib Require Import ZArith List String Ascii Bool Lia.
From Stdlib Require Import Decimal DecimalString SpecFloat.
Import ListNotations.

Local Open Scope string_scope.
Local Open Scope Z_scope.

(* ------------------------------------------------------------------ *)
(** * Python runtime *)
(* ------------------------------------------------------------------ *)

Module Py.

(** Exceptions; every one of them is a subclass of [Exception]. *)
Inductive exn : Type :=
| TypeError
| AttributeError
| IndexError
| KeyError
| RequestException
| JSONDecodeError
| ValueError
| Web3Exception.

Inductive outcome (A : Type) : Type :=
| Returned (a : A)
| Raised (e : exn).

Arguments Returned {A} a.
Arguments Raised {A} e.

Definition bind {A B : Type} (c : outcome A) (k : A -> outcome B) : outcome B :=
  match c with
  | Returned a => k a
  | Raised e => Raised e
  end.

Declare Scope py_scope.
Delimit Scope py_scope with py.
Notation "x <- c ;; k" := (bind c (fun x => k))
  (at level 61, c at next level, right associativity) : py_scope.

(** [for x in items: st = body(st, x)] where the body may raise. *)
Fixpoint for_each {A S : Type} (body : S -> A -> outcome S)
    (items : list A) (st : S) : outcome S :=
  match items with
  | [] => Returned st
  | x :: rest => bind (body st x) (for_each body rest)
  end.

(** ** Strings *)

(** [needle in hay] on two [str]. *)
Fixpoint str_in (needle hay : string) : bool :=
  prefix needle hay
  || match hay with
     | EmptyString => false
     | String _ rest => str_in needle rest
     end.

(** [s.split(c)] for a separator of one character. *)
Fixpoint split (c : ascii) (s : string) : list string :=
  match s with
  | EmptyString => [EmptyString]
  | String a rest =>
      let r := split c rest in
      if Ascii.eqb a c then EmptyString :: r
      else match r with
           | [] => [String a EmptyString]
           | w :: ws => String a w :: ws
           end
  end.

(** [str(n)] for an [int]. *)
Definition str_of_int (n : Z) : string := NilZero.string_of_int (Z.to_int n).

(** ** Dictionaries: the items, in insertion order *)

Section Dict.
Context {V : Type}.

Fixpoint dict_get (d : list (string * V)) (k : string) : option V :=
  match d with
  | [] => None
  | (k', v) :: rest => if String.eqb k' k then Some v else dict_get rest k
  end.

Definition dict_get_default (d : list (string * V)) (k : string) (dflt : V) : V :=
  match dict_get d k with
  | Some v => v
  | None => dflt
  end.

Definition dict_has (d : list (string * V)) (k : string) : bool :=
  match dict_get d k with
  | Some _ => true
  | None => false
  end.

(** [d[k] = v]: overwrite in place, or append a new item. *)
Fixpoint dict_set (d : list (string * V)) (k : string) (v : V) : list (string * V) :=
  match d with
  | [] => [(k, v)]
  | (k', v') :: rest =>
      if String.eqb k' k then (k', v) :: rest else (k', v') :: dict_set rest k v
  end.

Definition dict_keys (d : list (string * V)) : list string := map fst d.
End Dict.

(** ** Values decoded from JSON *)

#[warnings="-register-all"]
Inductive json : Type :=
| JNone
| JBool (b : bool)
| JInt (n : Z)
| JFloat (x : spec_float)
| JStr (s : string)
| JList (items : list json)
| JDict (items : list (string * json)).

(** [bool(v)]. *)
Definition truthy (v : json) : bool :=
  match v with
  | JNone => false
  | JBool b => b
  | JInt n => negb (n =? 0)
  | JFloat (S754_zero _) => false
  | JFloat _ => true
  | JStr s => negb (String.eqb s "")
  | JList items => match items with [] => false | _ => true end
  | JDict items => match items with [] => false | _ => true end
  end.

Definition isinstance_list (v : json) : bool :=
  match v with JList _ => true | _ => false end.

Definition isinstance_str (v : json) : bool :=
  match v with JStr _ => true | _ => false end.

Definition isinstance_dict (v : json) : bool :=
  match v with JDict _ => true | _ => false end.

(** [v == key] for a [str] key. *)
Definition eq_str (key : string) (v : json) : bool :=
  match v with JStr s => String.eqb s key | _ => false end.

(** [key in v] for a [str] key: membership in a dict's keys, in a list's
    elements, substring of a str; anything else is not iterable. *)
Definition contains (v : json) (key : string) : outcome bool :=
  match v with
  | JDict items => Returned (dict_has items key)
  | JList items => Returned (existsb (eq_str key) items)
  | JStr s => Returned (str_in key s)
  | _ => Raised TypeError
  end.

(** [v.get(key)]: only a dict has the method. *)
Definition method_get (v : json) (key : string) : outcome json :=
  match v with
  | JDict items => Returned (dict_get_default items key JNone)
  | _ => Raised AttributeError
  end.

(** [v[0]]. *)
Definition item0 (v : json) : outcome json :=
  match v with
  | JList (x :: _) => Returned x
  | JList [] => Raised IndexError
  | JStr (String a _) => Returned (JStr (String a EmptyString))
  | JStr EmptyString => Raised IndexError
  | JDict _ => Raised KeyError
  | _ => Raised TypeError
  end.

(** [a or b]. *)
Definition or_else (a b : json) : json := if truthy a then a else b.

(** ** ASCII instances of the runtime's case mappings *)

Definition ascii_lower_char (a : ascii) : ascii :=
  let n := nat_of_ascii a in
  if ((65 <=? n) && (n <=? 90))%nat then ascii_of_nat (n + 32) else a.

Definition is_ascii_alpha (a : ascii) : bool :=
  let n := nat_of_ascii a in
  (((65 <=? n) && (n <=? 90)) || ((97 <=? n) && (n <=? 122)))%nat.

Definition ascii_upper_char (a : ascii) : ascii :=
  let n := nat_of_ascii a in
  if ((97 <=? n) && (n <=? 122))%nat then ascii_of_nat (n - 32) else a.

Fixpoint ascii_lower (s : string) : string :=
  match s with
  | EmptyString => EmptyString
  | String a rest => String (ascii_lower_char a) (ascii_lower rest)
  end.

Fixpoint ascii_title_from (after_letter : bool) (s : string) : string :=
  match s with
  | EmptyString => EmptyString
  | String a rest =>
      String (if after_letter then ascii_lower_char a else ascii_upper_char a)
             (ascii_title_from (is_ascii_alpha a) rest)
  end.

Definition ascii_title (s : string) : string := ascii_title_from false s.

End Py.

(* ------------------------------------------------------------------ *)
(** * analyzers/solidity_patterns.py *)
(* ------------------------------------------------------------------ *)

Module SolidityPatterns.
Import Py.
Local Open Scope py_scope.

(** The [print] calls of this module are not modelled. *)

(** One entry of the result list: a dict with the keys [status],
    [message] and [severity]. *)
Record Finding : Type := mkFinding {
  status : string;
  message : string;
  severity : string
}.

(** The loop variables of [analyze_contract]. *)
Record scan : Type := mkScan {
  results : list Finding;
  risk_score : Z;
  issues : Z
}.

Section Analyzer.

(** [str.lower]. *)
Variable lower : string -> string.

(** The [try] block of [get_contract_source]:
    [requests.get(url, timeout=15)] followed by [resp.json()], as a
    function of the URL. *)
Variable fetch_json : string -> outcome json.

Definition chain_domains : list (string * string) :=
  [ ("ethereum", "eth.blockscout.com");
    ("bsc", "bsc.blockscout.com");
    ("polygon", "polygon.blockscout.com") ].

Definition source_url (address chain : string) : string :=
  let domain := dict_get_default chain_domains (lower chain) "eth.blockscout.com" in
  "https://" ++ domain ++ "/api?module=contract&action=getsourcecode&address=" ++ address.

(** Lines 52-58: the tail shared by the dict and the first-element paths. *)
Definition source_code_of (result : json) : outcome json :=
  v <- method_get result "SourceCode" ;;
  let source_code := or_else v (JStr "") in
  if truthy source_code then Returned source_code else Returned (JStr "").

Definition get_contract_source (address chain : string) : outcome json :=
  let url := source_url address chain in
  match fetch_json url with
  | Raised _ => Returned (JStr "")
  | Returned data =>
      absent <- (if negb (truthy data) then Returned true
                 else present <- contains data "result" ;; Returned (negb present)) ;;
      if absent : bool then Returned (JStr "")
      else
        result <- method_get data "result" ;;
        if isinstance_list result && truthy result then
          first <- item0 result ;; source_code_of first
        else if isinstance_str result then Returned (JStr "")
        else if negb (isinstance_dict result) then Returned (JStr "")
        else source_code_of result
  end.

(** The rule table, in the order [checks.items()] yields it. *)
Definition checks : list (string * (string * Z)) :=
  [ ("onlyOwner", ("✅ Contains access control using onlyOwner.", 0));
    ("mint", ("⚠️ Mint function found (check if restricted).", -20));
    ("blacklist", ("⚠️ Blacklist logic detected (potential sell restriction).", -15));
    ("tx.origin", ("🚨 Uses tx.origin — potential phishing risk.", -40));
    ("renounceOwnership", ("✅ Ownership can be renounced.", 20)) ].

(** [source_code.lower()]: only a str has the method. *)
Definition method_lower (v : json) : outcome string :=
  match v with
  | JStr s => Returned (lower s)
  | _ => Raised AttributeError
  end.

Definition severity_of (message : string) : string :=
  if str_in "🚨" message then "High"
  else if str_in "⚠️" message then "Medium"
  else "Low".

(** The Finding appended for a rule that matched. *)
Definition rule_finding (message : string) : Finding :=
  {| status := hd "" (split " " message);
     message := message;
     severity := severity_of message |}.

(** The body of the [for] loop, lines 100-114. *)
Definition check_pattern (source_code : json) (st : scan)
    (item : string * (string * Z)) : outcome scan :=
  let '(pattern, (message, impact)) := item in
  text <- method_lower source_code ;;
  if str_in (lower pattern) text then
    Returned {| results := results st ++ [rule_finding message];
                risk_score := risk_score st + impact;
                issues := if impact <? 0 then issues st + 1 else issues st |}
  else Returned st.

(** Lines 99-114. *)
Definition pattern_checks (source_code : json) (st : scan) : outcome scan :=
  for_each (check_pattern source_code) checks {| results := results st;
                                                 risk_score := risk_score st;
                                                 issues := 0 |}.

Definition safe_finding : Finding :=
  {| status := "✅ Safe";
     message := "No known risk patterns detected.";
     severity := "Low" |}.

(** Lines 117-123. *)
Definition safe_case (st : scan) : scan :=
  if issues st =? 0 then
    {| results := results st ++ [safe_finding];
       risk_score := risk_score st + 10;
       issues := issues st |}
  else st.

(** Line 126. *)
Definition clamp (risk_score : Z) : Z := Z.max 0 (Z.min 100 risk_score).

(** Lines 129-133. *)
Definition risk_label (risk_score : Z) : string :=
  if risk_score >=? 80 then "🟢 Low Risk"
  else if risk_score >=? 50 then "🟡 Moderate Risk"
  else "🔴 High Risk".

(** Lines 136-140. *)
Definition summary_finding (issues risk_score : Z) (risk_label : string) : Finding :=
  {| status := "📊 Summary";
     message := "Verified: ✅ | Issues Found: " ++ str_of_int issues
                ++ " | Overall Risk: " ++ str_of_int risk_score
                ++ "/100 (" ++ risk_label ++ ")";
     severity := "Info" |}.

Definition critical_finding : Finding :=
  {| status := "❌ Critical";
     message := "Contract not verified — cannot review source.";
     severity := "High" |}.

(** Lines 83-87. *)
Definition unverified_risk_finding (risk_score : Z) : Finding :=
  {| status := "⚠️ Risk";
     message := "Overall Risk Score: " ++ str_of_int (Z.max risk_score 0)
                ++ "/100 (Critical)";
     severity := "High" |}.

Definition analyze_contract (address chain : string) : outcome (list Finding) :=
  source_code <- get_contract_source address chain ;;
  let st := {| results := []; risk_score := 100; issues := 0 |} in
  if negb (truthy source_code) then
    let results := (results st ++ [critical_finding])%list in
    let risk_score := risk_score st - 80 in
    let results := (results ++ [unverified_risk_finding risk_score])%list in
    Returned results
  else
    st <- pattern_checks source_code st ;;
    let st := safe_case st in
    let risk_score := clamp (risk_score st) in
    let risk_label := risk_label risk_score in
    Returned (results st ++ [summary_finding (issues st) risk_score risk_label])%list.

(** ** Notions used to state the properties *)

(** The test of line 101, on a source text. *)
Definition hit (src pattern : string) : bool :=
  str_in (lower pattern) (lower src).

(** The rules of a table that match a source text, in table order. *)
Definition matched (src : string) (items : list (string * (string * Z)))
    : list (string * (string * Z)) :=
  filter (fun item => hit src (fst item)) items.

Definition impact_sum (items : list (string * (string * Z))) : Z :=
  fold_right (fun item acc => snd (snd item) + acc) 0 items.

Definition negative_count (items : list (string * (string * Z))) : Z :=
  fold_right (fun item acc => if snd (snd item) <? 0 then acc + 1 else acc) 0 items.

Definition rule_findings (items : list (string * (string * Z))) : list Finding :=
  map (fun item => rule_finding (fst (snd item))) items.

(** A Finding made from a row of the rule table. *)
Definition rule_match (f : Finding) : Prop :=
  exists item, In item checks /\ f = rule_finding (fst (snd item)).

Definition is_summary (f : Finding) : bool :=
  String.eqb (status f) "📊 Summary".

(** The score a closing Finding reports: the number its message prints
    before [/100]. *)
Definition reports (f : Finding) (score : Z) : Prop :=
  (exists risk_score, f = unverified_risk_finding risk_score
                      /\ score = Z.max risk_score 0)
  \/ (exists issues, f = summary_finding issues score (risk_label score)).

End Analyzer.

(** The replies to the explorer request for which the specification
    promises the empty string: the [try] block raised, the body has no
    [result] key, or [result] is a string, an empty list, a non-empty
    list, or a dict without a non-empty [SourceCode]. *)
Inductive listed_reply : outcome json -> Prop :=
| listed_transport_failure :
    listed_reply (Raised RequestException)
| listed_malformed_json :
    listed_reply (Raised JSONDecodeError)
| listed_missing_result items :
    dict_has items "result" = false ->
    listed_reply (Returned (JDict items))
| listed_result_str items s :
    dict_get items "result" = Some (JStr s) ->
    listed_reply (Returned (JDict items))
| listed_result_empty_list items :
    dict_get items "result" = Some (JList []) ->
    listed_reply (Returned (JDict items))
| listed_result_list items first rest :
    dict_get items "result" = Some (JList (first :: rest)) ->
    listed_reply (Returned (JDict items))
| listed_result_dict items d :
    dict_get items "result" = Some (JDict d) ->
    truthy (dict_get_default d "SourceCode" JNone) = false ->
    listed_reply (Returned (JDict items)).

(** The replies the code answers with the empty string. *)
Inductive degraded_reply : outcome json -> Prop :=
| degraded_raised e :
    degraded_reply (Raised e)
| degraded_falsy data :
    truthy data = false ->
    degraded_reply (Returned data)
| degraded_missing_result data :
    contains data "result" = Returned false ->
    degraded_reply (Returned data)
| degraded_result_str items s :
    dict_get items "result" = Some (JStr s) ->
    degraded_reply (Returned (JDict items))
| degraded_result_empty_list items :
    dict_get items "result" = Some (JList []) ->
    degraded_reply (Returned (JDict items))
| degraded_result_list items d rest :
    dict_get items "result" = Some (JList (JDict d :: rest)) ->
    truthy (dict_get_default d "SourceCode" JNone) = false ->
    degraded_reply (Returned (JDict items))
| degraded_result_dict items d :
    dict_get items "result" = Some (JDict d) ->
    truthy (dict_get_default d "SourceCode" JNone) = false ->
    degraded_reply (Returned (JDict items)).

(** An explorer that answers every request with the same reply. *)
Definition always (reply : outcome json) (url : string) : outcome json := reply.

(** The explorer's reply for a verified contract with the given source. *)
Definition verified_reply (src : string) : outcome json :=
  Returned (JDict [("status", JStr "1");
                   ("result", JList [JDict [("SourceCode", JStr src)]])]).

End SolidityPatterns.

(* ------------------------------------------------------------------ *)
(** * analyzers/onchain_checks.py *)
(* ------------------------------------------------------------------ *)

Module OnchainChecks.
Import Py.

(** The [print] calls are not modelled. [w3.eth.contract(address, abi)]
    builds a local object from the fixed ABI; the calls through it are
    the fields of [node] below. *)

(** A call made through web3 during one probe, with the answer it got. *)
Inductive call : Type :=
| IsConnected (answer : bool)
| GetCode (address : string) (answer : outcome (list Byte.byte))
| CallName (answer : outcome string)
| CallSymbol (answer : outcome string)
| CallOwner (answer : outcome string)
| AllFunctions (answer : outcome (list string)).

(** The calls of the steps that follow the code read. *)
Definition is_sub_probe (c : call) : bool :=
  match c with
  | IsConnected _ | GetCode _ _ => false
  | CallName _ | CallSymbol _ | CallOwner _ | AllFunctions _ => true
  end.

(** What [Web3(Web3.HTTPProvider(rpc_url))] answers; the contract calls
    take the checksummed address the contract object was built with. *)
Record node : Type := mkNode {
  is_connected : bool;
  get_code : string -> outcome (list Byte.byte);
  name_call : string -> outcome string;
  symbol_call : string -> outcome string;
  owner_call : string -> outcome string;
  all_functions : string -> outcome (list string)
}.

(** A computation that may raise and that records the calls it makes;
    the calls made before an exception stay recorded. *)
Definition io (A : Type) : Type := list call -> outcome A * list call.

Definition ret {A : Type} (a : A) : io A := fun log => (Returned a, log).

Definition raise {A : Type} (e : exn) : io A := fun log => (Raised e, log).

Definition io_bind {A B : Type} (c : io A) (k : A -> io B) : io B :=
  fun log =>
    match c log with
    | (Returned a, log') => k a log'
    | (Raised e, log') => (Raised e, log')
    end.

(** Make a call: record it with its answer, then return or raise as
    the answer says. *)
Definition perform {A : Type} (event : A -> call) (answer : A) : io unit :=
  fun log => (Returned tt, (log ++ [event answer])%list).

Definition lift {A : Type} (answer : outcome A) : io A :=
  fun log => (answer, log).

(** [try: body  except Exception: handler]. *)
Definition try_except {A : Type} (body handler : io A) : io A :=
  fun log =>
    match body log with
    | (Returned a, log') => (Returned a, log')
    | (Raised _, log') => handler log'
    end.

Declare Scope io_scope.
Delimit Scope io_scope with io.
Notation "x <- c ;; k" := (io_bind c (fun x => k))
  (at level 61, c at next level, right associativity) : io_scope.
Notation "c ;; k" := (io_bind c (fun _ => k))
  (at level 61, right associativity) : io_scope.
Local Open Scope io_scope.

Section Prober.

(** [str.lower] and [str.title]. *)
Variable lower : string -> string.
Variable title : string -> string.

(** [os.getenv("ETH_RPC_URL", ...)] and [os.getenv("BSC_RPC_URL", ...)]. *)
Variable ETH_RPC_URL : string.
Variable BSC_RPC_URL : string.

(** The node behind an RPC URL. *)
Variable web3 : string -> node.

(** [Web3.to_checksum_address], a computation local to the client. *)
Variable to_checksum_address : string -> outcome string.

Definition RPC_MAP : list (string * string) :=
  [ ("ethereum", ETH_RPC_URL); ("bsc", BSC_RPC_URL) ].

(** Lines 56-61. *)
Definition token_info (w3 : node) (address : string)
    (result : list (string * string)) : io (list (string * string)) :=
  try_except
    (perform CallName (name_call w3 address) ;;
     name <- lift (name_call w3 address) ;;
     perform CallSymbol (symbol_call w3 address) ;;
     symbol <- lift (symbol_call w3 address) ;;
     ret (dict_set result "token" (name ++ " (" ++ symbol ++ ")")))
    (ret (dict_set result "token" "Unknown Token")).

(** Lines 64-68. *)
Definition owner_detection (w3 : node) (address : string)
    (result : list (string * string)) : io (list (string * string)) :=
  try_except
    (perform CallOwner (owner_call w3 address) ;;
     owner <- lift (owner_call w3 address) ;;
     ret (dict_set result "owner" owner))
    (ret (dict_set result "owner"
            "⚠️ Owner() not found (may use custom access control).")).

(** Lines 71-75. *)
Definition transfer_presence (w3 : node) (address : string)
    (result : list (string * string)) : io (list (string * string)) :=
  try_except
    (perform AllFunctions (all_functions w3 address) ;;
     fn_names <- lift (all_functions w3 address) ;;
     ret (dict_set result "transfer_test"
            (if existsb (String.eqb "transfer") fn_names
             then "✅ Transfer function exists"
             else "❌ Missing transfer()")))
    (ret (dict_set result "transfer_test" "⚠️ Transfer check failed")).

(** Lines 78-82. *)
Definition honeypot_indicator
    (result : list (string * string)) : io (list (string * string)) :=
  match dict_get result "transfer_test" with
  | None => raise KeyError
  | Some transfer_test =>
      ret (dict_set result "honeypot_risk"
             (if str_in "✅" transfer_test
              then "🟢 Transfer function present"
              else "🔴 Possible Honeypot (transfer() missing)"))
  end.

(** The four messages an [error] mapping can carry, lines 27, 33, 38, 42. *)
Definition error_messages (chain : string) : list string :=
  [ "Unsupported chain '" ++ chain ++ "'. Use 'ethereum' or 'bsc'.";
    "Cannot connect to " ++ title chain ++ " RPC node.";
    "Invalid address format.";
    "No contract code found (EOA address)." ].

Definition check_honeypot_and_owner (address chain : string)
    : io (list (string * string)) :=
  let rpc_url := dict_get RPC_MAP (lower chain) in
  match rpc_url with
  | None | Some EmptyString =>
      ret [("error", "Unsupported chain '" ++ chain ++ "'. Use 'ethereum' or 'bsc'.")]
  | Some rpc_url =>
      let w3 := web3 rpc_url in
      perform IsConnected (is_connected w3) ;;
      if negb (is_connected w3) then
        ret [("error", "Cannot connect to " ++ title chain ++ " RPC node.")]
      else
        match to_checksum_address address with
        | Raised _ => ret [("error", "Invalid address format.")]
        | Returned address =>
            perform (GetCode address) (get_code w3 address) ;;
            code <- lift (get_code w3 address) ;;
            if match code with [] => true | _ => false end
               || (Z.of_nat (List.length code) =? 0) then
              ret [("error", "No contract code found (EOA address).")]
            else
              let result := [] in
              result <- token_info w3 address result ;;
              result <- owner_detection w3 address result ;;
              result <- transfer_presence w3 address result ;;
              result <- honeypot_indicator result ;;
              ret result
        end
  end.

End Prober.

(** ** Notions used to state the properties *)

(** The [transfer_test] entry the enumeration step leaves. *)
Definition transfer_test_of (answer : outcome (list string)) : string :=
  match answer with
  | Returned fn_names =>
      if existsb (String.eqb "transfer") fn_names
      then "✅ Transfer function exists"
      else "❌ Missing transfer()"
  | Raised _ => "⚠️ Transfer check failed"
  end.

(** The calls of the token and owner steps, with their answers. *)
Definition token_owner_calls (w3 : node) (address : string) : list call :=
  (CallName (name_call w3 address)
   :: match name_call w3 address with
      | Returned _ => [CallSymbol (symbol_call w3 address)]
      | Raised _ => []
      end)
  ++ [CallOwner (owner_call w3 address)].

(** The chain has no usable RPC URL: its lowercase name is not a key of
    [RPC_MAP], or the URL under it is the empty string. *)
Definition unsupported (lower : string -> string)
    (ETH_RPC_URL BSC_RPC_URL chain : string) : Prop :=
  (lower chain = "ethereum" /\ ETH_RPC_URL = "")
  \/ (lower chain = "bsc" /\ BSC_RPC_URL = "")
  \/ (lower chain <> "ethereum" /\ lower chain <> "bsc").

(** The [token] entry the token step leaves. *)
Definition token_of (w3 : node) (address : string) : string :=
  match name_call w3 address, symbol_call w3 address with
  | Returned name, Returned symbol => name ++ " (" ++ symbol ++ ")"
  | _, _ => "Unknown Token"
  end.

(** The [owner] entry the owner step leaves. *)
Definition owner_of (w3 : node) (address : string) : string :=
  match owner_call w3 address with
  | Returned owner => owner
  | Raised _ => "⚠️ Owner() not found (may use custom access control)."
  end.

(** A node that answers as one serving a deployed token does, the code
    at every address being [code]. *)
Definition token_node (code : list Byte.byte) : node :=
  {| is_connected := true;
     get_code := fun _ => Returned code;
     name_call := fun _ => Returned "Tether USD";
     symbol_call := fun _ => Returned "USDT";
     owner_call := fun _ => Returned "0xC6CDE7C39eB2f0F0095F41570af89eFC2C1Ea828";
     all_functions := fun _ => Returned ["name"; "symbol"; "owner"; "transfer"] |}.

(** A checksum conversion that accepts its argument as it is. *)
Definition checksummed (address : string) : outcome string := Returned address.

End OnchainChecks.

(* ------------------------------------------------------------------ *)
(** * analyzers/solidity_patterns.py: the report writer *)
(* ------------------------------------------------------------------ *)

Module Reports.
Import Py SolidityPatterns.

(** A byte that continues a UTF-8 character. *)
Definition is_continuation (a : ascii) : bool :=
  let n := nat_of_ascii a in ((128 <=? n) && (n <? 192))%nat.

(** [len(s)]: the number of characters. *)
Fixpoint str_len (s : string) : nat :=
  match s with
  | EmptyString => 0
  | String a rest => if is_continuation a then str_len rest else S (str_len rest)
  end.

(** [s[:n]]: the first [n] characters, or all of [s] when it has fewer. *)
Fixpoint slice_to (n : nat) (s : string) : string :=
  match s with
  | EmptyString => EmptyString
  | String a rest =>
      if is_continuation a then String a (slice_to n rest)
      else match n with
           | O => EmptyString
           | S n' => String a (slice_to n' rest)
           end
  end.

Section Saver.

(** [os.makedirs("reports", exist_ok=True)]. *)
Variable makedirs : outcome unit.

(** [open(filename, "w", encoding="utf-8")], as a function of the name;
    a file that opens is written in full. *)
Variable open_w : string -> outcome unit.

(** The text [json.dump(results, f, indent=4)] writes. *)
Variable json_dump : list Finding -> string.

(** Line 152; [timestamp] is [datetime.now().strftime("%Y%m%d_%H%M%S")]. *)
Definition report_filename (address chain timestamp : string) : string :=
  "reports/" ++ chain ++ "_" ++ slice_to 6 address ++ "_" ++ timestamp ++ ".json".

(** Lines 144-159, on the files present, as the dict from name to
    content. *)
Definition save_scan_report (address chain : string) (results : list Finding)
    (timestamp : string) (files : list (string * string))
    : outcome unit * list (string * string) :=
  match makedirs with
  | Raised e => (Raised e, files)
  | Returned _ =>
      let filename := report_filename address chain timestamp in
      match open_w filename with
      | Returned _ => (Returned tt, dict_set files filename (json_dump results))
      | Raised _ => (Returned tt, files)
      end
  end.

End Saver.

(** A file system that opens every file, and a stand-in for the
    serializer that writes the messages, one per line. *)
Definition opens (filename : string) : outcome unit := Returned tt.

Definition dump_messages (results : list Finding) : string :=
  String.concat (String "010"%char EmptyString) (map message results).

End Reports.

(* ------------------------------------------------------------------ *)
(** * rugcheck.py *)
(* ------------------------------------------------------------------ *)

Module Rugcheck.
Import Py SolidityPatterns OnchainChecks Reports.

(** What a run of the tool leaves behind: the web3 calls made and the
    files present. *)
Record world : Type := mkWorld {
  calls : list call;
  files : list (string * string)
}.

Section Cli.

Variable lower : string -> string.
Variable title : string -> string.
Variable fetch_json : string -> outcome json.
Variable ETH_RPC_URL : string.
Variable BSC_RPC_URL : string.
Variable web3 : string -> node.
Variable to_checksum_address : string -> outcome string.
Variable makedirs : outcome unit.
Variable open_w : string -> outcome unit.
Variable json_dump : list Finding -> string.

(** [datetime.now().strftime("%Y%m%d_%H%M%S")] at the one call that
    saves the report. *)
Variable now : string.

(** [str(e)] for an exception and [str(d)] for a dict of strings. *)
Variable str_of_exn : exn -> string.
Variable str_of_dict : list (string * string) -> string.

(** Lines 49-55: the probe is called with the address alone, so with
    the default of its [chain] parameter. *)
Definition onchain_analysis (address : string) (w : world)
    : list (string * string) * world :=
  let '(probe, made) :=
    check_honeypot_and_owner lower title ETH_RPC_URL BSC_RPC_URL web3
      to_checksum_address address "ethereum" [] in
  let w := {| calls := (calls w ++ made)%list; files := files w |} in
  match probe with
  | Returned onchain_results => (onchain_results, w)
  | Raised e => ([("error", str_of_exn e)], w)
  end.

(** [main], after [parse_args]: [--address] is required, [--chain]
    defaults to "ethereum". *)
Definition main (address : string) (chain_arg : option string) (w : world)
    : outcome unit * world :=
  let chain := match chain_arg with Some c => c | None => "ethereum" end in
  match analyze_contract lower fetch_json address chain with
  | Raised e => (Raised e, w)
  | Returned results =>
      let '(onchain_results, w) := onchain_analysis address w in
      let combined_report :=
        (results ++ [ {| status := "🔗 On-chain";
                         message := str_of_dict onchain_results;
                         severity := "Info" |} ])%list in
      let '(saved, files') :=
        save_scan_report makedirs open_w json_dump address chain combined_report
          now (files w) in
      (saved, {| calls := calls w; files := files' |})
  end.

End Cli.

(** Stand-ins for [str(e)] and [str(d)] in runs: the name of the
    exception class, and the items as [key: value], separated by commas. *)
Definition exn_name (e : exn) : string :=
  match e with
  | TypeError => "TypeError"
  | AttributeError => "AttributeError"
  | IndexError => "IndexError"
  | KeyError => "KeyError"
  | RequestException => "RequestException"
  | JSONDecodeError => "JSONDecodeError"
  | ValueError => "ValueError"
  | Web3Exception => "Web3Exception"
  end.

Definition show_items (d : list (string * string)) : string :=
  String.concat ", " (map (fun kv => fst kv ++ ": " ++ snd kv) d).

End Rugcheck.

(* ------------------------------------------------------------------ *)
(** * telegram_bot.py *)
(* ------------------------------------------------------------------ *)

Module TelegramBot.
Import Py SolidityPatterns OnchainChecks Reports.

(** The dict stored under [last_report]. *)
Record last_report : Type := mkLastReport {
  address : string;
  chain : string;
  summary : string
}.

(** One user's session: the replies delivered (text and parse mode),
    [context.user_data], the web3 calls made and the files present. *)
Record session : Type := mkSession {
  sent : list (string * option string);
  user_data : list (string * last_report);
  calls : list call;
  files : list (string * string)
}.

(** The line feed of the message texts. *)
Definition nl : string := String "010"%char EmptyString.

Section Handlers.

Variable lower : string -> string.
Variable title : string -> string.
Variable fetch_json : string -> outcome json.
Variable ETH_RPC_URL : string.
Variable BSC_RPC_URL : string.
Variable web3 : string -> node.
Variable to_checksum_address : string -> outcome string.
Variable makedirs : outcome unit.
Variable open_w : string -> outcome unit.
Variable json_dump : list Finding -> string.
Variable now : string.
Variable str_of_exn : exn -> string.

(** What Telegram answers to [update.message.reply_text(text,
    parse_mode=...)]. *)
Variable telegram : string -> option string -> outcome unit.

Definition reply_text (text : string) (parse_mode : option string) (s : session)
    : outcome unit * session :=
  match telegram text parse_mode with
  | Returned _ =>
      (Returned tt, {| sent := (sent s ++ [(text, parse_mode)])%list;
                       user_data := user_data s;
                       calls := calls s;
                       files := files s |})
  | Raised e => (Raised e, s)
  end.

(** [x in l] for a list of str. *)
Definition in_list (x : string) (l : list string) : bool :=
  existsb (fun y => String.eqb y x) l.

(** Lines 58-67 and 110-118: the chain named by the arguments after the
    address, with its aliases resolved. *)
Definition chain_of_args (rest : list string) : string :=
  let chain := "ethereum" in
  let chain := match rest with
               | c :: _ => lower c
               | [] => chain
               end in
  if in_list chain ["eth"] then "ethereum"
  else if in_list chain ["bnb"; "bsc"] then "bsc"
  else chain.

(** [next((r["message"] for r in results if r["status"] == "📊 Summary"),
    "No summary.")]. *)
Fixpoint static_summary_of (results : list Finding) : string :=
  match results with
  | [] => "No summary."
  | r :: rest =>
      if String.eqb (status r) "📊 Summary" then message r
      else static_summary_of rest
  end.

(** Lines 83-86. *)
Definition scan_reply (static_summary chain : string)
    (onchain_results : list (string * string)) : string :=
  let reply := "✅ *Static Analysis:*" ++ nl ++ static_summary ++ nl ++ nl in
  let reply := reply ++ "🔗 *On-Chain Checks (" ++ title chain ++ "):*" ++ nl in
  fold_left (fun reply kv => reply ++ "• " ++ fst kv ++ ": " ++ snd kv ++ nl)
    onchain_results reply.

(** The [try] block of [scan], lines 76-95. *)
Definition scan_try (address chain : string) (s : session)
    : outcome unit * session :=
  match analyze_contract lower fetch_json address chain with
  | Raised e => (Raised e, s)
  | Returned results =>
      let '(probe, made) :=
        check_honeypot_and_owner lower title ETH_RPC_URL BSC_RPC_URL web3
          to_checksum_address address chain [] in
      let s := {| sent := sent s; user_data := user_data s;
                  calls := (calls s ++ made)%list; files := files s |} in
      match probe with
      | Raised e => (Raised e, s)
      | Returned onchain_results =>
          let static_summary := static_summary_of results in
          let reply := scan_reply static_summary chain onchain_results in
          let '(saved, files') :=
            save_scan_report makedirs open_w json_dump address chain results
              now (files s) in
          let s := {| sent := sent s; user_data := user_data s;
                      calls := calls s; files := files' |} in
          match saved with
          | Raised e => (Raised e, s)
          | Returned _ =>
              let s := {| sent := sent s;
                          user_data := dict_set (user_data s) "last_report"
                                         {| address := address;
                                            chain := chain;
                                            summary := reply |};
                          calls := calls s;
                          files := files s |} in
              reply_text reply (Some "Markdown") s
          end
      end
  end.

(** [scan], lines 52-98, on [context.args]. *)
Definition scan (args : list string) (s : session) : outcome unit * session :=
  match args with
  | [] => reply_text "⚠️ Usage: /scan <contract_address> <chain>" None s
  | address :: rest =>
      let chain := chain_of_args rest in
      if negb (in_list chain ["ethereum"; "bsc"]) then
        reply_text "⚠️ Unsupported chain. Use 'eth' or 'bsc'." None s
      else
        match reply_text ("🔍 Scanning " ++ address ++ " on " ++ title chain ++ "...")
                None s with
        | (Raised e, s) => (Raised e, s)
        | (Returned _, s) =>
            match scan_try address chain s with
            | (Raised e, s) => reply_text ("❌ Scan failed: " ++ str_of_exn e) None s
            | (Returned _, s) => (Returned tt, s)
            end
        end
  end.

(** The [try] block of [score], lines 123-127. *)
Definition score_try (address chain : string) (s : session)
    : outcome unit * session :=
  match analyze_contract lower fetch_json address chain with
  | Raised e => (Raised e, s)
  | Returned results =>
      let static_summary := static_summary_of results in
      reply_text ("✅ " ++ static_summary) None s
  end.

(** [score], lines 104-130. *)
Definition score (args : list string) (s : session) : outcome unit * session :=
  match args with
  | [] => reply_text "⚠️ Usage: /score <contract_address> <chain>" None s
  | address :: rest =>
      let chain := chain_of_args rest in
      match reply_text ("📊 Calculating risk score for " ++ address ++ " on "
                        ++ title chain ++ "...") None s with
      | (Raised e, s) => (Raised e, s)
      | (Returned _, s) =>
          match score_try address chain s with
          | (Raised e, s) =>
              reply_text ("❌ Failed to get score: " ++ str_of_exn e) None s
          | (Returned _, s) => (Returned tt, s)
          end
      end
  end.

(** The text of lines 142-147. *)
Definition last_message (r : last_report) : string :=
  "📝 *Last Scan Summary*" ++ nl
  ++ "Contract: `" ++ address r ++ "`" ++ nl
  ++ "Chain: " ++ title (chain r) ++ nl ++ nl
  ++ summary r.

(** [last], lines 136-148. *)
Definition last (s : session) : outcome unit * session :=
  match dict_get (user_data s) "last_report" with
  | None => reply_text "📭 No previous scan found. Use /scan first." None s
  | Some r => reply_text (last_message r) (Some "Markdown") s
  end.

End Handlers.

(** A Telegram that delivers every reply. *)
Definition delivers (text : string) (parse_mode : option string) : outcome unit :=
  Returned tt.

End TelegramBot.

(* ------------------------------------------------------------------ *)
(** * Properties of the pattern scorer *)
(* ------------------------------------------------------------------ *)

Import Py SolidityPatterns.

(** Rewrite a test that a hypothesis on the other patterns makes fail. *)
Ltac miss H pattern :=
  rewrite (H pattern) by (first [discriminate | simpl; tauto | reflexivity]).

Section AnalyzerProperties.

Variable lower : string -> string.
Variable fetch_json : string -> outcome json.

Lemma split_not_nil (c : ascii) (s : string) : split c s <> [].
Proof.
  induction s as [|a rest IH]; simpl; [discriminate|].
  destruct (Ascii.eqb a c); [discriminate|].
  destruct (split c rest); [contradiction|discriminate].
Qed.

(** The loop over any table, on a source text: it never raises, appends
    the Findings of the matching rows in order, adds their impacts and
    counts the negative ones. *)
Lemma for_each_check_pattern (src : string) :
  forall items st,
    for_each (check_pattern lower (JStr src)) items st
    = Returned {| results := results st ++ rule_findings (matched lower src items);
                  risk_score := risk_score st + impact_sum (matched lower src items);
                  issues := issues st + negative_count (matched lower src items) |}.
Proof.
  induction items as [|[pattern [msg impact]] items IH]; intros [rs sc n]; simpl.
  - now rewrite app_nil_r, !Z.add_0_r.
  - unfold hit at 1 2 3; simpl fst.
    destruct (str_in (lower pattern) (lower src)); simpl.
    + rewrite IH; simpl. rewrite <- app_assoc; simpl.
      destruct (impact <? 0); do 2 f_equal; lia.
    + apply IH.
Qed.

Lemma pattern_checks_text (src : string) :
  pattern_checks lower (JStr src) {| results := []; risk_score := 100; issues := 0 |}
  = Returned {| results := rule_findings (matched lower src checks);
                risk_score := 100 + impact_sum (matched lower src checks);
                issues := negative_count (matched lower src checks) |}.
Proof.
  unfold pattern_checks. now rewrite for_each_check_pattern.
Qed.

Lemma clamp_range (x : Z) : 0 <= clamp x <= 100.
Proof. unfold clamp. lia. Qed.

(** What [analyze_contract] returns once the fetched value is a
    non-empty text. *)
Lemma analyze_contract_text (address chain src : string) :
  get_contract_source lower fetch_json address chain = Returned (JStr src) ->
  src <> "" ->
  analyze_contract lower fetch_json address chain
  = Returned
      (let st := safe_case {| results := rule_findings (matched lower src checks);
                              risk_score := 100 + impact_sum (matched lower src checks);
                              issues := negative_count (matched lower src checks) |} in
       results st ++ [summary_finding (issues st) (clamp (risk_score st))
                        (risk_label (clamp (risk_score st)))])%list.
Proof.
  intros Hsrc Hne. unfold analyze_contract. rewrite Hsrc. unfold bind.
  assert (Ht : truthy (JStr src) = true).
  { simpl. destruct (String.eqb_spec src ""); [contradiction|reflexivity]. }
  rewrite Ht. cbn [negb results risk_score issues].
  now rewrite pattern_checks_text.
Qed.

Lemma analyze_contract_not_verified (address chain : string) :
  get_contract_source lower fetch_json address chain = Returned (JStr "") ->
  analyze_contract lower fetch_json address chain
  = Returned [critical_finding; unverified_risk_finding 20].
Proof.
  intros Hsrc. unfold analyze_contract. rewrite Hsrc. reflexivity.
Qed.

(** C1. Whatever the address, the chain and the fetched source text,
    [analyze_contract] returns a list whose last Finding reports a score
    between 0 and 100. *)
Theorem analyze_contract_score_in_range (address chain src : string) :
  get_contract_source lower fetch_json address chain = Returned (JStr src) ->
  exists (init : list Finding) (final : Finding) (score : Z),
    analyze_contract lower fetch_json address chain = Returned (init ++ [final])%list
    /\ reports final score
    /\ 0 <= score <= 100.
Proof.
  intros Hsrc. destruct (string_dec src "") as [->|Hne].
  - exists [critical_finding], (unverified_risk_finding 20), 20.
    split; [now apply analyze_contract_not_verified|].
    split; [|lia]. left. exists 20. split; [reflexivity|lia].
  - rewrite (analyze_contract_text _ _ _ Hsrc Hne).
    set (st := safe_case _). cbv zeta.
    exists (results st), (summary_finding (issues st) (clamp (risk_score st))
                            (risk_label (clamp (risk_score st)))), (clamp (risk_score st)).
    split; [reflexivity|]. split; [|apply clamp_range].
    right. now exists (issues st).
Qed.

(** C3. When the fetched source text is empty the result is exactly the
    critical notice, of severity High, followed by the closing Finding
    that reads score 20 (that is [max (100 - 80) 0]) out of 100,
    Critical; no Finding of the rule table is in it. *)
Theorem analyze_contract_unverified (address chain : string) :
  get_contract_source lower fetch_json address chain = Returned (JStr "") ->
  analyze_contract lower fetch_json address chain
  = Returned [ {| status := "❌ Critical";
                  message := "Contract not verified — cannot review source.";
                  severity := "High" |};
               {| status := "⚠️ Risk";
                  message := "Overall Risk Score: 20/100 (Critical)";
                  severity := "High" |} ]
  /\ unverified_risk_finding (100 - 80)
     = {| status := "⚠️ Risk";
          message := "Overall Risk Score: " ++ str_of_int (Z.max (100 - 80) 0)
                     ++ "/100 (Critical)";
          severity := "High" |}
  /\ Z.max (100 - 80) 0 = 20
  /\ forall f, In f [critical_finding; unverified_risk_finding 20] -> ~ rule_match f.
Proof.
  intros Hsrc. split; [|split; [|split]].
  - now rewrite analyze_contract_not_verified.
  - reflexivity.
  - reflexivity.
  - intros f Hin (item & Hitem & Hf). subst f.
    unfold checks in Hitem. simpl in Hitem, Hin.
    repeat (destruct Hitem as [<-|Hitem]; [destruct Hin as [H|[H|[]]]; discriminate H|]).
    contradiction.
Qed.

(** The rows of the table that match, read off the five tests. *)
Lemma matched_checks (src : string) :
  matched lower src checks
  = ((if hit lower src "onlyOwner"
      then [("onlyOwner", ("✅ Contains access control using onlyOwner.", 0))] else [])
     ++ (if hit lower src "mint"
         then [("mint", ("⚠️ Mint function found (check if restricted).", -20))] else [])
     ++ (if hit lower src "blacklist"
         then [("blacklist",
                ("⚠️ Blacklist logic detected (potential sell restriction).", -15))] else [])
     ++ (if hit lower src "tx.origin"
         then [("tx.origin", ("🚨 Uses tx.origin — potential phishing risk.", -40))] else [])
     ++ (if hit lower src "renounceOwnership"
         then [("renounceOwnership", ("✅ Ownership can be renounced.", 20))] else []))%list.
Proof.
  unfold matched, checks. cbn [filter fst].
  repeat match goal with |- context [hit lower src ?p] =>
    destruct (hit lower src p) end; reflexivity.
Qed.

Lemma rule_findings_not_summary (items : list (string * (string * Z))) :
  (forall item, In item items -> In item checks) ->
  forall f, In f (rule_findings items) -> is_summary f = false.
Proof.
  intros Hsub f Hin. unfold rule_findings in Hin.
  apply in_map_iff in Hin. destruct Hin as (item & <- & Hitem).
  apply Hsub in Hitem. unfold checks in Hitem. simpl in Hitem.
  repeat (destruct Hitem as [<-|Hitem]; [reflexivity|]). contradiction.
Qed.

Lemma filter_none {A : Type} (p : A -> bool) (l : list A) :
  (forall x, In x l -> p x = false) -> filter p l = [].
Proof.
  induction l as [|x l IH]; intros Hl; [reflexivity|].
  simpl. rewrite (Hl x (or_introl eq_refl)). apply IH.
  intros y Hy. apply Hl. now right.
Qed.

Lemma matched_in_checks (src : string) (item : string * (string * Z)) :
  In item (matched lower src checks) -> In item checks.
Proof.
  unfold matched. intros H. now apply filter_In in H.
Qed.

(** C4, as amended. For a non-empty fetched source text the result is
    the Findings of the matching rules in table order, then the
    no-issue Finding when the issue count is 0, then one summary
    Finding; the summary is last and no other element is a summary. *)
Theorem analyze_contract_verified_shape (address chain src : string) :
  get_contract_source lower fetch_json address chain = Returned (JStr src) ->
  src <> "" ->
  exists (summary : Finding),
    let hits := matched lower src checks in
    let extra := if negative_count hits =? 0 then [safe_finding] else [] in
    analyze_contract lower fetch_json address chain
    = Returned (rule_findings hits ++ extra ++ [summary])%list
    /\ Forall rule_match (rule_findings hits)
    /\ is_summary summary = true
    /\ (forall f, In f (rule_findings hits ++ extra)%list -> is_summary f = false)
    /\ List.length (filter is_summary (rule_findings hits ++ extra ++ [summary])%list) = 1%nat.
Proof.
  intros Hsrc Hne. rewrite (analyze_contract_text _ _ _ Hsrc Hne).
  set (hits := matched lower src checks).
  assert (Hothers : forall f,
             In f (rule_findings hits
                   ++ (if negative_count hits =? 0 then [safe_finding] else []))%list ->
             is_summary f = false).
  { intros f Hin. apply in_app_or in Hin. destruct Hin as [Hin|Hin].
    - eapply rule_findings_not_summary; [|exact Hin].
      intros item. apply (matched_in_checks src).
    - destruct (negative_count hits =? 0); simpl in Hin; [|contradiction].
      destruct Hin as [<-|[]]. reflexivity. }
  assert (Hrules : Forall rule_match (rule_findings hits)).
  { apply Forall_forall. intros f Hin. unfold rule_findings in Hin.
    apply in_map_iff in Hin. destruct Hin as (item & <- & Hitem).
    exists item. split; [exact (matched_in_checks src item Hitem)|reflexivity]. }
  unfold safe_case; cbn [issues results risk_score]. cbv zeta.
  revert Hothers.
  destruct (negative_count hits =? 0); intros Hothers;
    cbn [results issues risk_score]; eexists;
    (split; [try rewrite <- app_assoc; reflexivity|]);
    (split; [exact Hrules|]); (split; [reflexivity|]);
    (split; [exact Hothers|]);
    rewrite app_assoc, filter_app, (filter_none _ _ Hothers); reflexivity.
Qed.

(** C5. A source text that contains [tx.origin] and matches no other
    rule: score 100 - 40 = 60, one issue, Moderate Risk. *)
Theorem analyze_contract_tx_origin_only (address chain src : string) :
  get_contract_source lower fetch_json address chain = Returned (JStr src) ->
  src <> "" ->
  hit lower src "tx.origin" = true ->
  (forall pattern, In pattern (dict_keys checks) -> pattern <> "tx.origin" ->
                   hit lower src pattern = false) ->
  analyze_contract lower fetch_json address chain
  = Returned [ {| status := "🚨";
                  message := "🚨 Uses tx.origin — potential phishing risk.";
                  severity := "High" |};
               {| status := "📊 Summary";
                  message := "Verified: ✅ | Issues Found: 1 | Overall Risk: 60/100 (🟡 Moderate Risk)";
                  severity := "Info" |} ]
  /\ clamp (100 - 40) = 60.
Proof.
  intros Hsrc Hne Htx Hother. split; [|reflexivity].
  rewrite (analyze_contract_text _ _ _ Hsrc Hne), matched_checks, Htx.
  miss Hother "onlyOwner". miss Hother "mint". miss Hother "blacklist".
  miss Hother "renounceOwnership".
  reflexivity.
Qed.

(** C7. A source text that contains [renounceOwnership] and [mint] and
    matches no other rule: score 100 + 20 - 20 = 100, one issue (only
    the negative impact counts), Low Risk. *)
Theorem analyze_contract_renounce_and_mint (address chain src : string) :
  get_contract_source lower fetch_json address chain = Returned (JStr src) ->
  src <> "" ->
  hit lower src "renounceOwnership" = true ->
  hit lower src "mint" = true ->
  (forall pattern, In pattern (dict_keys checks) ->
                   pattern <> "renounceOwnership" -> pattern <> "mint" ->
                   hit lower src pattern = false) ->
  analyze_contract lower fetch_json address chain
  = Returned [ {| status := "⚠️";
                  message := "⚠️ Mint function found (check if restricted).";
                  severity := "Medium" |};
               {| status := "✅";
                  message := "✅ Ownership can be renounced.";
                  severity := "Low" |};
               {| status := "📊 Summary";
                  message := "Verified: ✅ | Issues Found: 1 | Overall Risk: 100/100 (🟢 Low Risk)";
                  severity := "Info" |} ]
  /\ clamp (100 + 20 - 20) = 100.
Proof.
  intros Hsrc Hne Hren Hmint Hother. split; [|reflexivity].
  rewrite (analyze_contract_text _ _ _ Hsrc Hne), matched_checks, Hren, Hmint.
  miss Hother "onlyOwner". miss Hother "blacklist". miss Hother "tx.origin".
  reflexivity.
Qed.

(** C6. For a non-empty source text on which no rule of negative impact
    matches, whichever of the other rules match: the issue count is 0,
    the no-issue Finding is appended once and 10 is added to the score,
    which then clamps to 100, Low Risk. When no rule matches at all the
    result is that Finding and the summary, nothing else. *)
Theorem analyze_contract_no_issue (address chain src : string) :
  get_contract_source lower fetch_json address chain = Returned (JStr src) ->
  src <> "" ->
  (forall item, In item checks -> snd (snd item) < 0 ->
                hit lower src (fst item) = false) ->
  (exists st,
      pattern_checks lower (JStr src)
        {| results := []; risk_score := 100; issues := 0 |} = Returned st
      /\ issues st = 0
      /\ risk_score st = 100 + impact_sum (matched lower src checks)
      /\ safe_case st = {| results := results st ++ [safe_finding];
                           risk_score := risk_score st + 10;
                           issues := 0 |}
      /\ clamp (risk_score st + 10) = 100
      /\ (forall f, In f (results st) -> f <> safe_finding)
      /\ analyze_contract lower fetch_json address chain
         = Returned (results st
                     ++ [ safe_finding;
                          {| status := "📊 Summary";
                             message := "Verified: ✅ | Issues Found: 0 | Overall Risk: 100/100 (🟢 Low Risk)";
                             severity := "Info" |} ])%list)
  /\ ((forall pattern, In pattern (dict_keys checks) -> hit lower src pattern = false) ->
      analyze_contract lower fetch_json address chain
      = Returned [ {| status := "✅ Safe";
                      message := "No known risk patterns detected.";
                      severity := "Low" |};
                   {| status := "📊 Summary";
                      message := "Verified: ✅ | Issues Found: 0 | Overall Risk: 100/100 (🟢 Low Risk)";
                      severity := "Info" |} ]
      /\ clamp (100 + 10) = 100).
Proof.
  intros Hsrc Hne Hneg.
  assert (Hmint : hit lower src "mint" = false).
  { apply (Hneg ("mint", ("⚠️ Mint function found (check if restricted).", -20)));
      [simpl; tauto|reflexivity]. }
  assert (Hblack : hit lower src "blacklist" = false).
  { apply (Hneg ("blacklist",
                 ("⚠️ Blacklist logic detected (potential sell restriction).", -15)));
      [simpl; tauto|reflexivity]. }
  assert (Htx : hit lower src "tx.origin" = false).
  { apply (Hneg ("tx.origin", ("🚨 Uses tx.origin — potential phishing risk.", -40)));
      [simpl; tauto|reflexivity]. }
  split.
  - eexists. split; [apply pattern_checks_text|].
    rewrite (analyze_contract_text _ _ _ Hsrc Hne), matched_checks, Hmint, Hblack, Htx.
    cbn [results risk_score issues].
    destruct (hit lower src "onlyOwner"), (hit lower src "renounceOwnership");
      (repeat split; try reflexivity);
      intros f Hin; simpl in Hin; intuition (subst; discriminate).
  - intros Hnone. split; [|reflexivity].
    rewrite (analyze_contract_text _ _ _ Hsrc Hne), matched_checks, Hmint, Hblack, Htx.
    miss Hnone "onlyOwner". miss Hnone "renounceOwnership".
    reflexivity.
Qed.

(** The tail of [get_contract_source] on a dict. *)
Lemma source_code_of_dict (d : list (string * json)) :
  source_code_of (JDict d)
  = Returned (if truthy (dict_get_default d "SourceCode" JNone)
              then dict_get_default d "SourceCode" JNone
              else JStr "").
Proof.
  unfold source_code_of, method_get, bind, or_else.
  destruct (truthy (dict_get_default d "SourceCode" JNone)) eqn:E.
  - now rewrite E.
  - reflexivity.
Qed.

(** A body that is a dict holding [result]. *)
Lemma get_contract_source_result (address chain : string)
    (items : list (string * json)) (result : json) :
  fetch_json (source_url lower address chain) = Returned (JDict items) ->
  dict_get items "result" = Some result ->
  get_contract_source lower fetch_json address chain
  = if isinstance_list result && truthy result then
      bind (item0 result) source_code_of
    else if isinstance_str result then Returned (JStr "")
    else if negb (isinstance_dict result) then Returned (JStr "")
    else source_code_of result.
Proof.
  intros Hfetch Hres. unfold get_contract_source. rewrite Hfetch.
  assert (Ht : truthy (JDict items) = true).
  { destruct items; [discriminate Hres|reflexivity]. }
  rewrite Ht. cbn [negb contains bind method_get].
  unfold dict_has, dict_get_default. rewrite Hres. reflexivity.
Qed.

(** The verified case: the [SourceCode] text of the dict, or of the first
    element of a non-empty list, is returned as it is. *)
Lemma get_contract_source_verified (address chain : string)
    (items d : list (string * json)) (result : json) (src : string) :
  fetch_json (source_url lower address chain) = Returned (JDict items) ->
  dict_get items "result" = Some result ->
  (result = JDict d \/ exists rest, result = JList (JDict d :: rest)) ->
  dict_get d "SourceCode" = Some (JStr src) ->
  src <> "" ->
  get_contract_source lower fetch_json address chain = Returned (JStr src).
Proof.
  intros Hfetch Hres Hshape Hsrc Hne.
  rewrite (get_contract_source_result _ _ _ _ Hfetch Hres).
  assert (Ht : truthy (JStr src) = true).
  { simpl. destruct (String.eqb_spec src ""); [contradiction|reflexivity]. }
  destruct Hshape as [->|[rest ->]]; cbn [isinstance_list isinstance_str
    isinstance_dict truthy andb negb item0 bind];
    rewrite source_code_of_dict; unfold dict_get_default; rewrite Hsrc, Ht;
    reflexivity.
Qed.

(** C2, as amended. When the request or the JSON decoding fails, the body
    is falsy or has no [result], or [result] is a string, an empty list,
    or a dict (itself, or as first element of a non-empty list) without a
    non-empty [SourceCode], [get_contract_source] returns the empty
    string and does not raise. *)
Theorem get_contract_source_degrades (address chain : string) :
  degraded_reply (fetch_json (source_url lower address chain)) ->
  get_contract_source lower fetch_json address chain = Returned (JStr "").
Proof.
  intros Hreply.
  inversion Hreply as [e He | data Hfalsy He | data Hmiss He | items s Hres He
                       | items Hres He | items d rest Hres Hsrc He
                       | items d Hres Hsrc He]; symmetry in He.
  - unfold get_contract_source. now rewrite He.
  - unfold get_contract_source. rewrite He, Hfalsy. reflexivity.
  - unfold get_contract_source. rewrite He.
    destruct (truthy data); [|reflexivity].
    cbn [negb]. rewrite Hmiss. reflexivity.
  - now rewrite (get_contract_source_result _ _ _ _ He Hres).
  - now rewrite (get_contract_source_result _ _ _ _ He Hres).
  - rewrite (get_contract_source_result _ _ _ _ He Hres).
    cbn [isinstance_list truthy andb item0 bind].
    now rewrite source_code_of_dict, Hsrc.
  - rewrite (get_contract_source_result _ _ _ _ He Hres).
    cbn [isinstance_list isinstance_str isinstance_dict truthy andb negb].
    now rewrite source_code_of_dict, Hsrc.
Qed.

End AnalyzerProperties.

(** ** Runs of the scorer *)

(** The fetcher hands a verified source over unchanged. *)
Lemma get_contract_source_verified_reply (src : string) :
  src <> "" ->
  get_contract_source ascii_lower (always (verified_reply src)) "0xdAC17F958D2ee523a2206206994597C13D831ec7" "ethereum"
  = Returned (JStr src).
Proof.
  intros Hne.
  eapply get_contract_source_verified with (d := [("SourceCode", JStr src)]);
    [reflexivity|reflexivity| |reflexivity|exact Hne].
  right. now exists [].
Qed.

(** A first element that is not a dict: the [AttributeError] of
    [result.get] reaches the caller. *)
Example get_contract_source_first_not_dict :
  get_contract_source ascii_lower
    (always (Returned (JDict [("result", JList [JStr "Contract source code not verified"])])))
    "0xdAC17F958D2ee523a2206206994597C13D831ec7" "ethereum"
  = Raised AttributeError.
Proof. reflexivity. Qed.

(** A body that is a number: the [TypeError] of the test for [result]
    reaches the caller. *)
Example get_contract_source_body_number :
  get_contract_source ascii_lower (always (Returned (JInt 502)))
    "0xdAC17F958D2ee523a2206206994597C13D831ec7" "ethereum"
  = Raised TypeError.
Proof. reflexivity. Qed.

(* ------------------------------------------------------------------ *)
(** * Properties of the on-chain prober *)
(* ------------------------------------------------------------------ *)

Import OnchainChecks.
Local Open Scope io_scope.

Lemma io_bind_perform {A B : Type} (event : A -> call) (answer : A)
    (k : unit -> io B) (log : list call) :
  io_bind (perform event answer) k log = k tt (log ++ [event answer])%list.
Proof. reflexivity. Qed.

Lemma io_bind_lift_returned {A B : Type} (a : A) (k : A -> io B) (log : list call) :
  io_bind (lift (Returned a)) k log = k a log.
Proof. reflexivity. Qed.

Lemma io_bind_lift_raised {A B : Type} (e : exn) (k : A -> io B) (log : list call) :
  io_bind (lift (Raised e)) k log = (Raised e, log).
Proof. reflexivity. Qed.

Lemma existsb_eqb_In (x : string) (l : list string) :
  existsb (String.eqb x) l = true <-> In x l.
Proof.
  rewrite existsb_exists. split.
  - intros (y & Hy & Heq). apply String.eqb_eq in Heq. now subst.
  - intros Hin. exists x. split; [exact Hin|apply String.eqb_refl].
Qed.

Section ProberProperties.

Variable lower : string -> string.
Variable title : string -> string.
Variable ETH_RPC_URL : string.
Variable BSC_RPC_URL : string.
Variable web3 : string -> node.
Variable to_checksum_address : string -> outcome string.

Lemma token_owner_calls_sub_probes (w3 : node) (address : string) :
  Forall (fun c => is_sub_probe c = true) (token_owner_calls w3 address)
  /\ (forall answer, ~ In (AllFunctions answer) (token_owner_calls w3 address))
  /\ (forall a answer, ~ In (GetCode a answer) (token_owner_calls w3 address)).
Proof.
  unfold token_owner_calls.
  destruct (name_call w3 address); cbn [app];
    (split; [repeat constructor|split]); intros; simpl;
    intros H; repeat (destruct H as [H|H]; [discriminate H|]); exact H.
Qed.

(** The four steps after the code read, from the empty result: they
    never raise, fill the four keys in order, and make only sub-probe
    calls, the enumeration being the last. *)
Lemma sub_probes_run (w3 : node) (address : string) (log : list call) :
  exists (token owner : string),
    (result <- token_info w3 address [] ;;
     result <- owner_detection w3 address result ;;
     result <- transfer_presence w3 address result ;;
     result <- honeypot_indicator result ;;
     ret result) log
    = (Returned [ ("token", token); ("owner", owner);
                  ("transfer_test", transfer_test_of (all_functions w3 address));
                  ("honeypot_risk",
                   if str_in "✅" (transfer_test_of (all_functions w3 address))
                   then "🟢 Transfer function present"
                   else "🔴 Possible Honeypot (transfer() missing)") ],
       (log ++ token_owner_calls w3 address
            ++ [AllFunctions (all_functions w3 address)])%list).
Proof.
  unfold token_info, owner_detection, transfer_presence, honeypot_indicator,
    token_owner_calls, transfer_test_of, try_except, io_bind, perform, lift, ret.
  destruct (name_call w3 address) as [name|e1];
    [destruct (symbol_call w3 address) as [symbol|e2]|];
    destruct (owner_call w3 address) as [owner|e3];
    destruct (all_functions w3 address) as [fn_names|e4];
    try destruct (existsb (String.eqb "transfer") fn_names);
    cbn -[str_in]; rewrite <- ?app_assoc; cbn [app];
    do 2 eexists; reflexivity.
Qed.

(** Every run of the prober from the empty call log has one of three
    shapes: an error mapping without any sub-probe, an exception out of
    the code read, or the four-key mapping after all the sub-probes. *)
Lemma check_honeypot_and_owner_run (address chain : string) :
  let run := check_honeypot_and_owner lower title ETH_RPC_URL BSC_RPC_URL web3
               to_checksum_address address chain [] in
  (exists msg,
      fst run = Returned [("error", msg)]
      /\ In msg (error_messages title chain)
      /\ Forall (fun c => is_sub_probe c = false) (snd run)
      /\ (forall a, In (GetCode a (Returned [])) (snd run) ->
                    msg = "No contract code found (EOA address)."))
  \/ (exists e,
         fst run = Raised e
         /\ forall a code, ~ In (GetCode a (Returned code)) (snd run))
  \/ (exists rpc_url a b code token owner,
         fst run
         = Returned [ ("token", token); ("owner", owner);
                      ("transfer_test", transfer_test_of (all_functions (web3 rpc_url) a));
                      ("honeypot_risk",
                       if str_in "✅" (transfer_test_of (all_functions (web3 rpc_url) a))
                       then "🟢 Transfer function present"
                       else "🔴 Possible Honeypot (transfer() missing)") ]
         /\ snd run
            = ([IsConnected true; GetCode a (Returned (b :: code))]
               ++ token_owner_calls (web3 rpc_url) a
               ++ [AllFunctions (all_functions (web3 rpc_url) a)])%list).
Proof.
  cbv zeta. unfold check_honeypot_and_owner.
  destruct (dict_get (RPC_MAP ETH_RPC_URL BSC_RPC_URL) (lower chain))
    as [[|c0 url]|].
  1, 3: left; eexists; cbn [ret fst snd]; (split; [reflexivity|]);
        (split; [now left|]); (split; [constructor|intros a []]).
  set (rpc_url := String c0 url). set (w3 := web3 rpc_url).
  rewrite io_bind_perform. cbn [app].
  destruct (is_connected w3) eqn:Hconn; cbn [negb].
  2: { left. eexists. cbn [ret fst snd]. split; [reflexivity|].
       split; [right; now left|]. split; [repeat constructor|].
       intros a [H|[]]. discriminate H. }
  destruct (to_checksum_address address) as [a|e].
  2: { left. eexists. cbn [ret fst snd]. split; [reflexivity|].
       split; [right; right; now left|]. split; [repeat constructor|].
       intros a [H|[]]. discriminate H. }
  rewrite io_bind_perform. cbn [app].
  destruct (get_code w3 a) as [[|b code]|e] eqn:Hcode.
  - rewrite io_bind_lift_returned. cbn [orb ret fst snd].
    left. eexists. split; [reflexivity|].
    split; [right; right; right; now left|]. split; [repeat constructor|].
    reflexivity.
  - rewrite io_bind_lift_returned.
    replace (Z.of_nat (List.length (b :: code)) =? 0) with false
      by (symmetry; apply Z.eqb_neq; cbn [List.length]; lia).
    cbn [orb]. cbv beta zeta.
    destruct (sub_probes_run w3 a
                (([] ++ [IsConnected true]) ++ [GetCode a (Returned (b :: code))]))
      as (token & owner & Hrun).
    rewrite Hrun. cbn [fst snd].
    right; right. exists rpc_url, a, b, code, token, owner. split; reflexivity.
  - rewrite io_bind_lift_raised. cbn [fst snd].
    right; left. exists e. split; [reflexivity|].
    intros a' code' [H|[H|[]]]; discriminate H.
Qed.

(** C9. When the code read answered with empty code, the result is the
    mapping with the single key [error] and the EOA message, and no call
    of the later steps (name, symbol, owner, enumeration) was made. *)
Theorem check_honeypot_and_owner_eoa (address chain a : string) :
  let run := check_honeypot_and_owner lower title ETH_RPC_URL BSC_RPC_URL web3
               to_checksum_address address chain [] in
  In (GetCode a (Returned [])) (snd run) ->
  fst run = Returned [("error", "No contract code found (EOA address).")]
  /\ (exists result, fst run = Returned result /\ dict_keys result = ["error"])
  /\ (forall c, In c (snd run) -> is_sub_probe c = false).
Proof.
  cbv zeta. intros Hin.
  pose proof (check_honeypot_and_owner_run address chain) as Hshape;
    cbv zeta in Hshape; destruct Hshape
    as [(msg & Hres & _ & Hlog & Hmsg)|[(e & Hres & Hnone)|
        (rpc_url & a' & b & code & token & owner & Hres & Hlog)]].
  - rewrite Hres, (Hmsg a Hin). split; [reflexivity|].
    split; [eexists; split; reflexivity|].
    now apply Forall_forall.
  - exfalso. exact (Hnone a [] Hin).
  - exfalso. rewrite Hlog in Hin.
    destruct (token_owner_calls_sub_probes (web3 rpc_url) a') as (_ & _ & Hnocode).
    apply in_app_or in Hin. destruct Hin as [Hin|Hin].
    + simpl in Hin. destruct Hin as [H|[H|[]]]; discriminate H.
    + apply in_app_or in Hin. destruct Hin as [Hin|Hin].
      * exact (Hnocode _ _ Hin).
      * simpl in Hin. destruct Hin as [H|[]]. discriminate H.
Qed.

(** C8. In a returned mapping that has [honeypot_risk], the entry reads
    "transfer function present" exactly when the enumeration call
    returned a list of names holding [transfer]; otherwise it reads
    "possible honeypot". *)
Theorem honeypot_risk_indicator (address chain : string)
    (result : list (string * string)) (log : list call) (risk : string) :
  check_honeypot_and_owner lower title ETH_RPC_URL BSC_RPC_URL web3
    to_checksum_address address chain [] = (Returned result, log) ->
  dict_get result "honeypot_risk" = Some risk ->
  (risk = "🟢 Transfer function present"
   <-> exists fn_names, In (AllFunctions (Returned fn_names)) log
                        /\ In "transfer" fn_names)
  /\ (~ (exists fn_names, In (AllFunctions (Returned fn_names)) log
                          /\ In "transfer" fn_names) ->
      risk = "🔴 Possible Honeypot (transfer() missing)").
Proof.
  intros Hrun Hrisk.
  pose proof (check_honeypot_and_owner_run address chain) as Hshape;
    cbv zeta in Hshape; destruct Hshape
    as [(msg & Hres & _)|[(e & Hres & _)|
        (rpc_url & a & b & code & token & owner & Hres & Hlog)]];
    rewrite Hrun in *; cbn [fst snd] in *.
  - injection Hres as ->. discriminate Hrisk.
  - discriminate Hres.
  - injection Hres as ->. cbn in Hrisk. injection Hrisk as <-.
    destruct (token_owner_calls_sub_probes (web3 rpc_url) a) as (_ & Hnoenum & _).
    assert (Hlast : forall answer, In (AllFunctions answer) log ->
                                   answer = all_functions (web3 rpc_url) a).
    { intros answer Hin. rewrite Hlog in Hin.
      apply in_app_or in Hin. destruct Hin as [Hin|Hin].
      - simpl in Hin. destruct Hin as [H|[H|[]]]; discriminate H.
      - apply in_app_or in Hin. destruct Hin as [Hin|Hin].
        + exfalso. exact (Hnoenum _ Hin).
        + simpl in Hin. destruct Hin as [H|[]]. now injection H. }
    assert (Hthere : In (AllFunctions (all_functions (web3 rpc_url) a)) log).
    { rewrite Hlog. apply in_or_app. right. apply in_or_app. right. now left. }
    destruct (all_functions (web3 rpc_url) a) as [fn_names|e] eqn:Henum;
      cbn [transfer_test_of].
    + destruct (existsb (String.eqb "transfer") fn_names) eqn:Hfound.
      * assert (Hyes : exists fns, In (AllFunctions (Returned fns)) log
                                   /\ In "transfer" fns).
        { exists fn_names. split; [exact Hthere|].
          now apply existsb_eqb_In. }
        split; [split; [intros _; exact Hyes|reflexivity]|].
        intros Hno. contradiction.
      * assert (Hno : ~ exists fns, In (AllFunctions (Returned fns)) log
                                    /\ In "transfer" fns).
        { intros (fns & Hin & Htr). apply Hlast in Hin. injection Hin as ->.
          apply existsb_eqb_In in Htr. congruence. }
        split; [split; [discriminate|intros Hyes; contradiction]|].
        reflexivity.
    + assert (Hno : ~ exists fns, In (AllFunctions (Returned fns)) log
                                  /\ In "transfer" fns).
      { intros (fns & Hin & _). apply Hlast in Hin. discriminate Hin. }
      split; [split; [discriminate|intros Hyes; contradiction]|].
      reflexivity.
Qed.

(** C10. A returned mapping has either the single key [error], with one
    of the four error messages, or the four keys [token], [owner],
    [transfer_test] and [honeypot_risk], each with a value. *)
Theorem check_honeypot_and_owner_keys (address chain : string)
    (result : list (string * string)) (log : list call) :
  check_honeypot_and_owner lower title ETH_RPC_URL BSC_RPC_URL web3
    to_checksum_address address chain [] = (Returned result, log) ->
  (dict_keys result = ["error"]
   /\ exists msg, result = [("error", msg)] /\ In msg (error_messages title chain))
  \/ (dict_keys result = ["token"; "owner"; "transfer_test"; "honeypot_risk"]
      /\ exists token owner transfer_test honeypot_risk,
           result = [ ("token", token); ("owner", owner);
                      ("transfer_test", transfer_test);
                      ("honeypot_risk", honeypot_risk) ]).
Proof.
  intros Hrun.
  pose proof (check_honeypot_and_owner_run address chain) as Hshape;
    cbv zeta in Hshape; destruct Hshape
    as [(msg & Hres & Hmsg & _)|[(e & Hres & _)|
        (rpc_url & a & b & code & token & owner & Hres & _)]];
    rewrite Hrun in *; cbn [fst] in *.
  - injection Hres as ->. left. split; [reflexivity|]. now exists msg.
  - discriminate Hres.
  - injection Hres as ->. right. split; [reflexivity|].
    do 4 eexists. reflexivity.
Qed.

(** The prober raises only when the code read does. *)
Lemma check_honeypot_and_owner_raises (address chain : string) (e : exn)
    (log : list call) :
  check_honeypot_and_owner lower title ETH_RPC_URL BSC_RPC_URL web3
    to_checksum_address address chain [] = (Raised e, log) ->
  exists a, In (GetCode a (Raised e)) log.
Proof.
  unfold check_honeypot_and_owner.
  destruct (dict_get (RPC_MAP ETH_RPC_URL BSC_RPC_URL) (lower chain))
    as [[|c0 url]|]; [discriminate| |discriminate].
  set (w3 := web3 (String c0 url)).
  rewrite io_bind_perform. destruct (is_connected w3); [|discriminate].
  cbn [negb]. destruct (to_checksum_address address) as [a|e']; [|discriminate].
  rewrite io_bind_perform.
  destruct (get_code w3 a) as [[|b code]|e'] eqn:Hcode.
  - discriminate.
  - rewrite io_bind_lift_returned.
    replace (Z.of_nat (List.length (b :: code)) =? 0) with false
      by (symmetry; apply Z.eqb_neq; cbn [List.length]; lia).
    cbn [orb]. cbv beta zeta.
    destruct (sub_probes_run w3 a
                (([] ++ [IsConnected true]) ++ [GetCode a (Returned (b :: code))]))
      as (token & owner & Hrun).
    rewrite Hrun. discriminate.
  - rewrite io_bind_lift_raised. intros H. injection H as -> <-.
    exists a. cbn. right. now left.
Qed.

End ProberProperties.

(* ------------------------------------------------------------------ *)
(** * Runs on concrete inputs *)
(* ------------------------------------------------------------------ *)

Local Close Scope io_scope.

(** C2, as stated, fails: a non-empty [result] list whose first element
    carries a verified source is a listed reply, and the source comes
    back, not the empty string. *)
Lemma get_contract_source_listed_not_empty :
  ~ (forall (lower : string -> string) (fetch_json : string -> outcome json)
            (address chain : string),
        listed_reply (fetch_json (source_url lower address chain)) ->
        get_contract_source lower fetch_json address chain = Returned (JStr "")).
Proof.
  intros Hclaim.
  specialize (Hclaim ascii_lower (always (verified_reply "contract Token {}"))
                "0xdAC17F958D2ee523a2206206994597C13D831ec7" "ethereum").
  assert (Hlisted : listed_reply (verified_reply "contract Token {}")).
  { eapply listed_result_list. reflexivity. }
  apply Hclaim in Hlisted. discriminate Hlisted.
Qed.

Lemma get_contract_source_degrades_witness :
  get_contract_source ascii_lower
    (always (Returned (JDict [("message", JStr "NOTOK");
                              ("result", JStr "Contract source code not verified")])))
    "0xdAC17F958D2ee523a2206206994597C13D831ec7" "ethereum"
  = Returned (JStr "").
Proof.
  apply get_contract_source_degrades.
  apply (degraded_result_str _ "Contract source code not verified").
  reflexivity.
Defined.

Lemma analyze_contract_score_in_range_witness :
  exists (init : list Finding) (final : Finding) (score : Z),
    analyze_contract ascii_lower
      (always (verified_reply "function mint(address to) public {}"))
      "0xdAC17F958D2ee523a2206206994597C13D831ec7" "ethereum"
    = Returned (init ++ [final])%list
    /\ reports final score
    /\ 0 <= score <= 100.
Proof.
  apply (analyze_contract_score_in_range ascii_lower _ _ _
           "function mint(address to) public {}").
  reflexivity.
Defined.

Lemma analyze_contract_unverified_witness :
  analyze_contract ascii_lower (always (verified_reply ""))
    "0xdAC17F958D2ee523a2206206994597C13D831ec7" "ethereum"
  = Returned [ {| status := "❌ Critical";
                  message := "Contract not verified — cannot review source.";
                  severity := "High" |};
               {| status := "⚠️ Risk";
                  message := "Overall Risk Score: 20/100 (Critical)";
                  severity := "High" |} ].
Proof.
  apply (analyze_contract_unverified ascii_lower). reflexivity.
Defined.

(** C4, as stated, fails: on a source that matches no rule the result is
    the no-issue Finding followed by the summary, and the no-issue
    Finding is not made from a row of the rule table. *)
Lemma analyze_contract_matches_then_summary_fails :
  ~ (forall (lower : string -> string) (fetch_json : string -> outcome json)
            (address chain src : string),
        get_contract_source lower fetch_json address chain = Returned (JStr src) ->
        src <> "" ->
        exists (matches : list Finding) (summary : Finding),
          analyze_contract lower fetch_json address chain
          = Returned (matches ++ [summary])%list
          /\ Forall rule_match matches
          /\ is_summary summary = true
          /\ (forall f, In f matches -> is_summary f = false)).
Proof.
  intros Hclaim.
  destruct (Hclaim ascii_lower (always (verified_reply "hello"))
              "0xdAC17F958D2ee523a2206206994597C13D831ec7" "ethereum" "hello")
    as (matches & summary & Hrun & Hrules & _); [reflexivity|discriminate|].
  assert (Hreal : analyze_contract ascii_lower (always (verified_reply "hello"))
                    "0xdAC17F958D2ee523a2206206994597C13D831ec7" "ethereum"
                  = Returned ([safe_finding]
                              ++ [summary_finding 0 100 "🟢 Low Risk"])%list)
    by reflexivity.
  rewrite Hreal in Hrun. injection Hrun as Hrun.
  change ([safe_finding] ++ [summary_finding 0 100 "🟢 Low Risk"]
          = matches ++ [summary])%list in Hrun.
  apply app_inj_tail in Hrun. destruct Hrun as [<- _].
  inversion Hrules as [|f fs (item & Hitem & Hf) _]; subst.
  unfold checks in Hitem. simpl in Hitem.
  repeat (destruct Hitem as [<-|Hitem]; [discriminate Hf|]). contradiction.
Qed.

Lemma analyze_contract_verified_shape_witness :
  exists (summary : Finding),
    let hits := matched ascii_lower "hello" checks in
    let extra := if negative_count hits =? 0 then [safe_finding] else [] in
    analyze_contract ascii_lower (always (verified_reply "hello"))
      "0xdAC17F958D2ee523a2206206994597C13D831ec7" "ethereum"
    = Returned (rule_findings hits ++ extra ++ [summary])%list
    /\ Forall rule_match (rule_findings hits)
    /\ is_summary summary = true
    /\ (forall f, In f (rule_findings hits ++ extra)%list -> is_summary f = false)
    /\ List.length (filter is_summary (rule_findings hits ++ extra ++ [summary])%list)
       = 1%nat.
Proof.
  apply (analyze_contract_verified_shape ascii_lower); [reflexivity|discriminate].
Defined.

Lemma analyze_contract_tx_origin_only_witness :
  analyze_contract ascii_lower
    (always (verified_reply "require(tx.origin == msg.sender);"))
    "0xdAC17F958D2ee523a2206206994597C13D831ec7" "ethereum"
  = Returned [ {| status := "🚨";
                  message := "🚨 Uses tx.origin — potential phishing risk.";
                  severity := "High" |};
               {| status := "📊 Summary";
                  message := "Verified: ✅ | Issues Found: 1 | Overall Risk: 60/100 (🟡 Moderate Risk)";
                  severity := "Info" |} ]
  /\ clamp (100 - 40) = 60.
Proof.
  apply (analyze_contract_tx_origin_only ascii_lower _ _ _
           "require(tx.origin == msg.sender);");
    [reflexivity|discriminate|reflexivity|].
  intros pattern Hin Hne. simpl in Hin.
  destruct Hin as [<-|[<-|[<-|[<-|[<-|[]]]]]];
    first [reflexivity | exfalso; apply Hne; reflexivity].
Defined.

Lemma analyze_contract_renounce_and_mint_witness :
  analyze_contract ascii_lower
    (always (verified_reply
               "function mint(uint256 n) external {} function renounceOwnership() external {}"))
    "0xdAC17F958D2ee523a2206206994597C13D831ec7" "ethereum"
  = Returned [ {| status := "⚠️";
                  message := "⚠️ Mint function found (check if restricted).";
                  severity := "Medium" |};
               {| status := "✅";
                  message := "✅ Ownership can be renounced.";
                  severity := "Low" |};
               {| status := "📊 Summary";
                  message := "Verified: ✅ | Issues Found: 1 | Overall Risk: 100/100 (🟢 Low Risk)";
                  severity := "Info" |} ]
  /\ clamp (100 + 20 - 20) = 100.
Proof.
  apply (analyze_contract_renounce_and_mint ascii_lower _ _ _
           "function mint(uint256 n) external {} function renounceOwnership() external {}");
    [reflexivity|discriminate|reflexivity|reflexivity|].
  intros pattern Hin Hne1 Hne2. simpl in Hin.
  destruct Hin as [<-|[<-|[<-|[<-|[<-|[]]]]]];
    first [reflexivity | exfalso; apply Hne1; reflexivity
           | exfalso; apply Hne2; reflexivity].
Defined.

(** Both rules of non-negative impact match: the score before the clamp
    is 100 + 0 + 20 + 10. *)
Lemma analyze_contract_no_issue_witness :
  exists st,
    pattern_checks ascii_lower
      (JStr "function renounceOwnership() public onlyOwner {}")
      {| results := []; risk_score := 100; issues := 0 |} = Returned st
    /\ issues st = 0
    /\ risk_score st + 10 = 130
    /\ analyze_contract ascii_lower
         (always (verified_reply "function renounceOwnership() public onlyOwner {}"))
         "0xdAC17F958D2ee523a2206206994597C13D831ec7" "ethereum"
       = Returned (results st
                   ++ [ safe_finding;
                        {| status := "📊 Summary";
                           message := "Verified: ✅ | Issues Found: 0 | Overall Risk: 100/100 (🟢 Low Risk)";
                           severity := "Info" |} ])%list.
Proof.
  destruct (analyze_contract_no_issue ascii_lower
              (always (verified_reply "function renounceOwnership() public onlyOwner {}"))
              "0xdAC17F958D2ee523a2206206994597C13D831ec7" "ethereum"
              "function renounceOwnership() public onlyOwner {}")
    as [(st & Hloop & Hissues & Hscore & _ & _ & _ & Hrun) _].
  - reflexivity.
  - discriminate.
  - intros item Hin Hneg. unfold checks in Hin. simpl in Hin.
    destruct Hin as [<-|[<-|[<-|[<-|[<-|[]]]]]];
      first [reflexivity | discriminate Hneg].
  - exists st. split; [exact Hloop|]. split; [exact Hissues|].
    split; [rewrite Hscore; reflexivity|exact Hrun].
Defined.

Lemma check_honeypot_and_owner_eoa_witness :
  let run := check_honeypot_and_owner ascii_lower ascii_title
               "https://eth.llamarpc.com" "https://bsc-dataseed.binance.org"
               (fun _ => token_node []) checksummed
               "0x52908400098527886E0F7030069857D2E4169EE7" "ethereum" [] in
  fst run = Returned [("error", "No contract code found (EOA address).")]
  /\ (exists result, fst run = Returned result /\ dict_keys result = ["error"])
  /\ (forall c, In c (snd run) -> is_sub_probe c = false).
Proof.
  apply (check_honeypot_and_owner_eoa ascii_lower ascii_title
           "https://eth.llamarpc.com" "https://bsc-dataseed.binance.org"
           (fun _ => token_node []) checksummed
           "0x52908400098527886E0F7030069857D2E4169EE7" "ethereum"
           "0x52908400098527886E0F7030069857D2E4169EE7").
  simpl. right. left. reflexivity.
Defined.

Lemma honeypot_risk_indicator_witness :
  exists (result : list (string * string)) (log : list call) (risk : string),
    check_honeypot_and_owner ascii_lower ascii_title
      "https://eth.llamarpc.com" "https://bsc-dataseed.binance.org"
      (fun _ => token_node [Byte.x60; Byte.x80]) checksummed
      "0xdAC17F958D2ee523a2206206994597C13D831ec7" "ethereum" []
    = (Returned result, log)
    /\ dict_get result "honeypot_risk" = Some risk
    /\ (risk = "🟢 Transfer function present"
        <-> exists fn_names, In (AllFunctions (Returned fn_names)) log
                             /\ In "transfer" fn_names)
    /\ (~ (exists fn_names, In (AllFunctions (Returned fn_names)) log
                            /\ In "transfer" fn_names) ->
        risk = "🔴 Possible Honeypot (transfer() missing)").
Proof.
  do 3 eexists. split; [lazy; reflexivity|]. split; [reflexivity|].
  eapply (honeypot_risk_indicator ascii_lower ascii_title
            "https://eth.llamarpc.com" "https://bsc-dataseed.binance.org"
            (fun _ => token_node [Byte.x60; Byte.x80]) checksummed
            "0xdAC17F958D2ee523a2206206994597C13D831ec7" "ethereum");
    [lazy; reflexivity|reflexivity].
Defined.

Lemma check_honeypot_and_owner_keys_witness :
  exists (result : list (string * string)) (log : list call),
    check_honeypot_and_owner ascii_lower ascii_title
      "https://eth.llamarpc.com" "https://bsc-dataseed.binance.org"
      (fun _ => token_node [Byte.x60; Byte.x80]) checksummed
      "0xdAC17F958D2ee523a2206206994597C13D831ec7" "bsc" []
    = (Returned result, log)
    /\ ((dict_keys result = ["error"]
         /\ exists msg, result = [("error", msg)]
                        /\ In msg (error_messages ascii_title "bsc"))
        \/ (dict_keys result = ["token"; "owner"; "transfer_test"; "honeypot_risk"]
            /\ exists token owner transfer_test honeypot_risk,
                 result = [ ("token", token); ("owner", owner);
                            ("transfer_test", transfer_test);
                            ("honeypot_risk", honeypot_risk) ])).
Proof.
  do 2 eexists. split; [lazy; reflexivity|].
  eapply (check_honeypot_and_owner_keys ascii_lower ascii_title
            "https://eth.llamarpc.com" "https://bsc-dataseed.binance.org"
            (fun _ => token_node [Byte.x60; Byte.x80]) checksummed
            "0xdAC17F958D2ee523a2206206994597C13D831ec7" "bsc").
  lazy; reflexivity.
Defined.

(** Sub-probe failures put fallback strings under the keys, they do not
    drop them. *)
Example check_honeypot_and_owner_fallbacks :
  check_honeypot_and_owner ascii_lower ascii_title
    "https://eth.llamarpc.com" "https://bsc-dataseed.binance.org"
    (fun _ => {| is_connected := true;
                 get_code := fun _ => Returned [Byte.x60];
                 name_call := fun _ => Raised Web3Exception;
                 symbol_call := fun _ => Raised Web3Exception;
                 owner_call := fun _ => Raised Web3Exception;
                 all_functions := fun _ => Raised Web3Exception |})
    checksummed "0xdAC17F958D2ee523a2206206994597C13D831ec7" "Ethereum" []
  = (Returned [ ("token", "Unknown Token");
                ("owner", "⚠️ Owner() not found (may use custom access control).");
                ("transfer_test", "⚠️ Transfer check failed");
                ("honeypot_risk", "🔴 Possible Honeypot (transfer() missing)") ],
     [ IsConnected true; GetCode "0xdAC17F958D2ee523a2206206994597C13D831ec7" (Returned [Byte.x60]);
       CallName (Raised Web3Exception); CallOwner (Raised Web3Exception);
       AllFunctions (Raised Web3Exception) ]).
Proof. reflexivity. Qed.

(* ------------------------------------------------------------------ *)
(** * Edge behaviour of the source fetcher and the scorer *)
(* ------------------------------------------------------------------ *)

Section AnalyzerEdges.

Variable lower : string -> string.
Variable fetch_json : string -> outcome json.

(** The tail of [get_contract_source]: anything but a dict has no [get];
    a dict gives the empty string or a truthy [SourceCode]. *)
Lemma source_code_of_cases (v : json) :
  (isinstance_dict v = false /\ source_code_of v = Raised AttributeError)
  \/ (isinstance_dict v = true
      /\ exists w, source_code_of v = Returned w /\ (w = JStr "" \/ truthy w = true)).
Proof.
  destruct v; try (left; split; reflexivity).
  right. split; [reflexivity|]. rewrite source_code_of_dict.
  destruct (truthy (dict_get_default items "SourceCode" JNone)) eqn:E;
    eexists; (split; [reflexivity|]); [now right|now left].
Qed.

(** A body that is a dict without [result]. *)
Lemma get_contract_source_no_result (address chain : string)
    (items : list (string * json)) :
  fetch_json (source_url lower address chain) = Returned (JDict items) ->
  dict_get items "result" = None ->
  get_contract_source lower fetch_json address chain = Returned (JStr "").
Proof.
  intros Hfetch Hres. unfold get_contract_source. rewrite Hfetch.
  destruct items as [|item items]; [reflexivity|].
  cbn [truthy negb contains bind]. unfold dict_has. now rewrite Hres.
Qed.

(** Every run of the fetcher: a value that is the empty string or
    truthy, or one of two exceptions raised on a truthy body. *)
Lemma get_contract_source_outcome (address chain : string) :
  (exists w, get_contract_source lower fetch_json address chain = Returned w
             /\ (w = JStr "" \/ truthy w = true))
  \/ (exists e data,
         get_contract_source lower fetch_json address chain = Raised e
         /\ (e = TypeError \/ e = AttributeError)
         /\ fetch_json (source_url lower address chain) = Returned data
         /\ truthy data = true).
Proof.
  destruct (fetch_json (source_url lower address chain)) as [data|e0] eqn:Hfetch.
  2: { left. exists (JStr ""). unfold get_contract_source. rewrite Hfetch.
       split; [reflexivity|now left]. }
  destruct (truthy data) eqn:Ht.
  2: { left. exists (JStr ""). unfold get_contract_source. rewrite Hfetch, Ht.
       split; [reflexivity|now left]. }
  destruct data as [|b|n|x|s|l|items].
  - discriminate Ht.
  - right. exists TypeError, (JBool b). unfold get_contract_source.
    rewrite Hfetch, Ht. repeat split; auto.
  - right. exists TypeError, (JInt n). unfold get_contract_source.
    rewrite Hfetch, Ht. repeat split; auto.
  - right. exists TypeError, (JFloat x). unfold get_contract_source.
    rewrite Hfetch, Ht. repeat split; auto.
  - unfold get_contract_source. rewrite Hfetch, Ht. cbn [negb contains bind].
    destruct (str_in "result" s); cbn [negb].
    + right. exists AttributeError, (JStr s). repeat split; auto.
    + left. exists (JStr ""). split; [reflexivity|now left].
  - unfold get_contract_source. rewrite Hfetch, Ht. cbn [negb contains bind].
    destruct (existsb (eq_str "result") l); cbn [negb].
    + right. exists AttributeError, (JList l). repeat split; auto.
    + left. exists (JStr ""). split; [reflexivity|now left].
  - destruct (dict_get items "result") as [result|] eqn:Hres.
    2: { left. exists (JStr "").
         split; [now apply get_contract_source_no_result with items|now left]. }
    rewrite (get_contract_source_result lower fetch_json _ _ _ _ Hfetch Hres).
    destruct result as [|b|n|x|s|[|first rest]|d];
      cbn [isinstance_list isinstance_str isinstance_dict truthy andb negb item0 bind];
      try (left; exists (JStr ""); split; [reflexivity|now left]).
    + destruct (source_code_of_cases first) as [[_ ->]|[_ (w & -> & Hw)]].
      * right. exists AttributeError, (JDict items). repeat split; auto.
      * left. now exists w.
    + destruct (source_code_of_cases (JDict d)) as [[H _]|[_ (w & -> & Hw)]];
        [discriminate H|]. left. now exists w.
Qed.

(** X1. A chain the explorer table does not list is looked up on the
    Ethereum explorer: the fetcher and the scorer answer as they do for
    [ethereum]. *)
Theorem analyze_contract_unlisted_chain (address chain : string) :
  lower "ethereum" = "ethereum" ->
  lower chain <> "ethereum" -> lower chain <> "bsc" -> lower chain <> "polygon" ->
  source_url lower address chain
  = "https://eth.blockscout.com/api?module=contract&action=getsourcecode&address="
    ++ address
  /\ get_contract_source lower fetch_json address chain
     = get_contract_source lower fetch_json address "ethereum"
  /\ analyze_contract lower fetch_json address chain
     = analyze_contract lower fetch_json address "ethereum".
Proof.
  intros Heth H1 H2 H3.
  assert (Hurl : source_url lower address chain
                 = "https://eth.blockscout.com/api?module=contract&action=getsourcecode&address="
                   ++ address).
  { unfold source_url, dict_get_default, chain_domains. cbn [dict_get].
    destruct (String.eqb_spec "ethereum" (lower chain)) as [E|_];
      [now symmetry in E|].
    destruct (String.eqb_spec "bsc" (lower chain)) as [E|_];
      [now symmetry in E|].
    destruct (String.eqb_spec "polygon" (lower chain)) as [E|_];
      [now symmetry in E|].
    reflexivity. }
  assert (Hsame : source_url lower address chain = source_url lower address "ethereum").
  { rewrite Hurl. unfold source_url. rewrite Heth. reflexivity. }
  assert (Hget : get_contract_source lower fetch_json address chain
                 = get_contract_source lower fetch_json address "ethereum").
  { unfold get_contract_source. now rewrite Hsame. }
  split; [exact Hurl|]. split; [exact Hget|].
  unfold analyze_contract. now rewrite Hget.
Qed.

(** X2. The fetcher never passes on a failure of the request or of the
    JSON decoding: when it raises, the request had returned a truthy
    body, and the exception is a [TypeError] or an [AttributeError]. *)
Theorem get_contract_source_raises (address chain : string) (e : exn) :
  get_contract_source lower fetch_json address chain = Raised e ->
  (exists data, fetch_json (source_url lower address chain) = Returned data
                /\ truthy data = true)
  /\ (e = TypeError \/ e = AttributeError).
Proof.
  intros Hrun.
  destruct (get_contract_source_outcome address chain)
    as [(w & Hw & _)|(e' & data & He & Hkind & Hfetch & Ht)].
  - rewrite Hw in Hrun. discriminate Hrun.
  - rewrite He in Hrun. injection Hrun as ->.
    split; [now exists data|exact Hkind].
Qed.

(** X3. On a body that is a JSON object the fetcher raises exactly when
    [result] is a non-empty list whose first element is not an object;
    the exception is then the [AttributeError] of [result.get]. *)
Theorem get_contract_source_object_raises (address chain : string)
    (items : list (string * json)) (e : exn) :
  fetch_json (source_url lower address chain) = Returned (JDict items) ->
  get_contract_source lower fetch_json address chain = Raised e
  <-> e = AttributeError
      /\ exists first rest,
           dict_get items "result" = Some (JList (first :: rest))
           /\ isinstance_dict first = false.
Proof.
  intros Hfetch.
  destruct (dict_get items "result") as [result|] eqn:Hres.
  2: { rewrite (get_contract_source_no_result _ _ _ Hfetch Hres).
       split; [discriminate|intros (_ & first & rest & H & _); discriminate H]. }
  rewrite (get_contract_source_result lower fetch_json _ _ _ _ Hfetch Hres).
  destruct result as [|b|n|x|s|[|first rest]|d];
    cbn [isinstance_list isinstance_str isinstance_dict truthy andb negb item0 bind];
    try (split; [discriminate|intros (_ & first' & rest' & H & _); discriminate H]).
  - destruct (source_code_of_cases first) as [[Hnd ->]|[Hd (w & -> & _)]].
    + split.
      * intros H. injection H as <-. split; [reflexivity|]. now exists first, rest.
      * intros (-> & _). reflexivity.
    + split; [discriminate|].
      intros (_ & first' & rest' & H & Hnd). injection H as <- <-.
      rewrite Hd in Hnd. discriminate Hnd.
  - destruct (source_code_of_cases (JDict d)) as [[H _]|[_ (w & -> & _)]];
      [discriminate H|].
    split; [discriminate|intros (_ & first' & rest' & H & _); discriminate H].
Qed.

(** X4. A [SourceCode] that is truthy but not a string is returned by
    the fetcher as it is, and the scorer then raises the
    [AttributeError] of [source_code.lower()]. *)
Theorem analyze_contract_source_not_text (address chain : string) (v : json) :
  get_contract_source lower fetch_json address chain = Returned v ->
  isinstance_str v = false ->
  truthy v = true
  /\ analyze_contract lower fetch_json address chain = Raised AttributeError.
Proof.
  intros Hrun Hstr.
  assert (Ht : truthy v = true).
  { destruct (get_contract_source_outcome address chain)
      as [(w & Hw & Hcases)|(e' & data & He & _)].
    - rewrite Hw in Hrun. injection Hrun as ->.
      destruct Hcases as [->|H]; [discriminate Hstr|exact H].
    - rewrite He in Hrun. discriminate Hrun. }
  split; [exact Ht|].
  unfold analyze_contract. rewrite Hrun. cbn [bind]. rewrite Ht. cbn [negb].
  destruct v; try discriminate Hstr; reflexivity.
Qed.

End AnalyzerEdges.

(* ------------------------------------------------------------------ *)
(** * The score and the label as functions of the five tests *)
(* ------------------------------------------------------------------ *)

Section ScoreTable.

Variable lower : string -> string.
Variable fetch_json : string -> outcome json.

(** The closing Finding of a run on a non-empty source text, with the
    scan state it is made from. *)
Lemma analyze_contract_closing (address chain src : string) :
  get_contract_source lower fetch_json address chain = Returned (JStr src) ->
  src <> "" ->
  let st := safe_case {| results := rule_findings (matched lower src checks);
                         risk_score := 100 + impact_sum (matched lower src checks);
                         issues := negative_count (matched lower src checks) |} in
  analyze_contract lower fetch_json address chain
  = Returned (results st
              ++ [summary_finding (issues st) (clamp (risk_score st))
                    (risk_label (clamp (risk_score st)))])%list.
Proof.
  intros Hsrc Hne. now rewrite (analyze_contract_text lower fetch_json _ _ _ Hsrc Hne).
Qed.

(** What the no-issue step does to the counters. *)
Lemma safe_case_counters (st : scan) :
  issues (safe_case st) = issues st
  /\ risk_score (safe_case st)
     = (if issues st =? 0 then risk_score st + 10 else risk_score st)
  /\ results (safe_case st)
     = (results st ++ (if issues st =? 0 then [safe_finding] else []))%list.
Proof.
  unfold safe_case. destruct (issues st =? 0); cbn [issues risk_score results];
    rewrite ?app_nil_r; auto.
Qed.

(** The impacts and the issue count of the matching rows, read off the
    tests; the [onlyOwner] row adds to neither. *)
Lemma matched_counters (src : string) :
  impact_sum (matched lower src checks)
  = (if hit lower src "mint" then -20 else 0)
    + (if hit lower src "blacklist" then -15 else 0)
    + (if hit lower src "tx.origin" then -40 else 0)
    + (if hit lower src "renounceOwnership" then 20 else 0)
  /\ negative_count (matched lower src checks)
     = (if hit lower src "mint" then 1 else 0)
       + (if hit lower src "blacklist" then 1 else 0)
       + (if hit lower src "tx.origin" then 1 else 0).
Proof.
  rewrite matched_checks.
  destruct (hit lower src "onlyOwner"), (hit lower src "mint"),
    (hit lower src "blacklist"), (hit lower src "tx.origin"),
    (hit lower src "renounceOwnership"); split; reflexivity.
Qed.

(** The severity of a Finding made from a row of the table. *)
Lemma rule_finding_severity (item : string * (string * Z)) :
  In item checks ->
  In (severity (rule_finding (fst (snd item)))) ["High"; "Medium"; "Low"].
Proof.
  intros Hin. unfold checks in Hin. simpl in Hin.
  repeat (destruct Hin as [<-|Hin];
          [vm_compute; repeat (try (left; reflexivity); right)|]).
  contradiction.
Qed.

(** The counters a run on a source text closes with. *)
Lemma closing_counters_range (src : string) :
  let st := safe_case {| results := rule_findings (matched lower src checks);
                         risk_score := 100 + impact_sum (matched lower src checks);
                         issues := negative_count (matched lower src checks) |} in
  25 <= clamp (risk_score st) <= 100
  /\ 0 <= issues st <= 3
  /\ (25 <= 100 + impact_sum (matched lower src checks)
            + (if issues st =? 0 then 10 else 0) <= 130).
Proof.
  cbv zeta.
  set (st := {| results := rule_findings (matched lower src checks) |}).
  destruct (safe_case_counters st) as (-> & -> & _).
  subst st. cbn [issues risk_score].
  destruct (matched_counters src) as (-> & ->).
  destruct (hit lower src "mint"), (hit lower src "blacklist"),
    (hit lower src "tx.origin"), (hit lower src "renounceOwnership");
    vm_compute; repeat split; discriminate.
Qed.

(** X5. A verified source never scores below 25, so always above the 20
    of an unverified contract, and never counts more than three issues;
    the lower bound 0 of the clamp is never reached. *)
Theorem analyze_contract_verified_floor (address chain src : string) :
  get_contract_source lower fetch_json address chain = Returned (JStr src) ->
  src <> "" ->
  exists (init : list Finding) (n score : Z),
    analyze_contract lower fetch_json address chain
    = Returned (init ++ [summary_finding n score (risk_label score)])%list
    /\ 25 <= score <= 100
    /\ 0 <= n <= 3
    /\ (25 <= 100 + impact_sum (matched lower src checks)
              + (if n =? 0 then 10 else 0) <= 130).
Proof.
  intros Hsrc Hne.
  pose proof (analyze_contract_closing _ _ _ Hsrc Hne) as Hrun. cbv zeta in Hrun.
  rewrite Hrun.
  eexists _, _, _. split; [reflexivity|].
  exact (closing_counters_range src).
Qed.

(** X6. The label of a verified source, read off the tests for [mint],
    [blacklist], [tx.origin] and [renounceOwnership]: High Risk exactly
    when [tx.origin] matches together with both of the other two
    negative rules, or with one of them and no [renounceOwnership];
    Low Risk exactly when [tx.origin] does not match and not both of
    the other two do, or [renounceOwnership] matches and [tx.origin]
    does not come with a second negative rule. *)
Theorem analyze_contract_label (address chain src : string) :
  get_contract_source lower fetch_json address chain = Returned (JStr src) ->
  src <> "" ->
  let mint := hit lower src "mint" in
  let blacklist := hit lower src "blacklist" in
  let tx_origin := hit lower src "tx.origin" in
  let renounce := hit lower src "renounceOwnership" in
  exists (init : list Finding) (n score : Z),
    analyze_contract lower fetch_json address chain
    = Returned (init ++ [summary_finding n score (risk_label score)])%list
    /\ (risk_label score = "🔴 High Risk"
        <-> tx_origin && ((mint && blacklist)
                          || (negb renounce && (mint || blacklist))) = true)
    /\ (risk_label score = "🟢 Low Risk"
        <-> (negb tx_origin && negb (mint && blacklist))
            || (renounce && negb (tx_origin && (mint || blacklist))) = true).
Proof.
  intros Hsrc Hne. cbv zeta.
  pose proof (analyze_contract_closing _ _ _ Hsrc Hne) as Hrun. cbv zeta in Hrun.
  rewrite Hrun.
  eexists _, _, _. split; [reflexivity|].
  set (st := {| results := rule_findings (matched lower src checks) |}).
  destruct (safe_case_counters st) as (_ & -> & _).
  subst st. cbn [issues risk_score].
  destruct (matched_counters src) as (-> & ->).
  destruct (hit lower src "mint"), (hit lower src "blacklist"),
    (hit lower src "tx.origin"), (hit lower src "renounceOwnership");
    vm_compute; (split; split; intros H; first [reflexivity | discriminate H]).
Qed.

(** X7. The [onlyOwner] rule changes neither the score, nor the issue
    count, nor the label: two verified sources on which the other four
    tests agree close with the same summary Finding. *)
Theorem analyze_contract_only_owner_neutral
    (address1 chain1 src1 address2 chain2 src2 : string) :
  get_contract_source lower fetch_json address1 chain1 = Returned (JStr src1) ->
  src1 <> "" ->
  get_contract_source lower fetch_json address2 chain2 = Returned (JStr src2) ->
  src2 <> "" ->
  (forall pattern,
      In pattern ["mint"; "blacklist"; "tx.origin"; "renounceOwnership"] ->
      hit lower src1 pattern = hit lower src2 pattern) ->
  exists (init1 init2 : list Finding) (summary : Finding),
    analyze_contract lower fetch_json address1 chain1
    = Returned (init1 ++ [summary])%list
    /\ analyze_contract lower fetch_json address2 chain2
       = Returned (init2 ++ [summary])%list
    /\ is_summary summary = true.
Proof.
  intros Hsrc1 Hne1 Hsrc2 Hne2 Hsame.
  pose proof (analyze_contract_closing _ _ _ Hsrc1 Hne1) as Hrun1.
  pose proof (analyze_contract_closing _ _ _ Hsrc2 Hne2) as Hrun2.
  cbv zeta in Hrun1, Hrun2. rewrite Hrun1, Hrun2.
  eexists _, _, _. split; [reflexivity|]. split; [|reflexivity].
  do 2 f_equal.
  set (st1 := {| results := rule_findings (matched lower src1 checks) |}).
  set (st2 := {| results := rule_findings (matched lower src2 checks) |}).
  destruct (safe_case_counters st1) as (-> & -> & _).
  destruct (safe_case_counters st2) as (-> & -> & _).
  subst st1 st2. cbn [issues risk_score].
  destruct (matched_counters src1) as (-> & ->).
  destruct (matched_counters src2) as (-> & ->).
  rewrite <- (Hsame "mint"), <- (Hsame "blacklist"), <- (Hsame "tx.origin"),
    <- (Hsame "renounceOwnership") by (simpl; tauto).
  reflexivity.
Qed.

(** X8. On any fetched text, empty or not, the scorer returns between
    two and six Findings, and the severity of each is one of [High],
    [Medium], [Low] and [Info]. *)
Theorem analyze_contract_findings (address chain src : string) :
  get_contract_source lower fetch_json address chain = Returned (JStr src) ->
  exists (findings : list Finding),
    analyze_contract lower fetch_json address chain = Returned findings
    /\ (2 <= List.length findings <= 6)%nat
    /\ Forall (fun f => In (severity f) ["High"; "Medium"; "Low"; "Info"]) findings.
Proof.
  intros Hsrc. destruct (string_dec src "") as [->|Hne].
  - rewrite (analyze_contract_not_verified lower fetch_json _ _ Hsrc).
    eexists. split; [reflexivity|]. split; [simpl; lia|].
    repeat (apply Forall_cons; [simpl; tauto|]). apply Forall_nil.
  - pose proof (analyze_contract_closing _ _ _ Hsrc Hne) as Hrun.
    cbv zeta in Hrun. rewrite Hrun.
    eexists. split; [reflexivity|].
    set (st := {| results := rule_findings (matched lower src checks) |}).
    destruct (safe_case_counters st) as (_ & _ & ->).
    subst st. cbn [issues results]. split.
    + rewrite !length_app. unfold rule_findings. rewrite length_map.
      destruct (matched_counters src) as (_ & ->).
      rewrite matched_checks.
      destruct (hit lower src "onlyOwner"), (hit lower src "mint"),
        (hit lower src "blacklist"), (hit lower src "tx.origin"),
        (hit lower src "renounceOwnership"); vm_compute; lia.
    + apply Forall_app. split; [apply Forall_app; split|].
      * apply Forall_forall. intros f Hin. unfold rule_findings in Hin.
        apply in_map_iff in Hin. destruct Hin as (item & <- & Hitem).
        apply (matched_in_checks lower) in Hitem.
        pose proof (rule_finding_severity item Hitem) as Hsev.
        simpl in Hsev |- *. tauto.
      * destruct (_ =? 0); [|apply Forall_nil].
        apply Forall_cons; [simpl; tauto|apply Forall_nil].
      * apply Forall_cons; [simpl; tauto|apply Forall_nil].
Qed.

End ScoreTable.

(* ------------------------------------------------------------------ *)
(** * Properties of the report writer *)
(* ------------------------------------------------------------------ *)

Import Reports.

Section DictFacts.
Context {V : Type}.

Lemma dict_get_set_same (d : list (string * V)) (k : string) (v : V) :
  dict_get (dict_set d k v) k = Some v.
Proof.
  induction d as [|[k' v'] d IH]; simpl.
  - now rewrite String.eqb_refl.
  - destruct (String.eqb k' k) eqn:E; simpl; rewrite E; [reflexivity|exact IH].
Qed.

Lemma dict_get_set_other (d : list (string * V)) (k k' : string) (v : V) :
  k' <> k -> dict_get (dict_set d k v) k' = dict_get d k'.
Proof.
  intros Hne. induction d as [|[k0 v0] d IH]; simpl.
  - destruct (String.eqb_spec k k'); [congruence|reflexivity].
  - destruct (String.eqb_spec k0 k); simpl.
    + subst k0. destruct (String.eqb_spec k k'); [congruence|reflexivity].
    + destruct (String.eqb k0 k'); [reflexivity|exact IH].
Qed.

Lemma dict_set_set (d : list (string * V)) (k : string) (v v' : V) :
  dict_set (dict_set d k v) k v' = dict_set d k v'.
Proof.
  induction d as [|[k0 v0] d IH]; simpl.
  - now rewrite String.eqb_refl.
  - destruct (String.eqb k0 k) eqn:E; simpl; rewrite E; [reflexivity|].
    now rewrite IH.
Qed.

Lemma dict_keys_set_set (d : list (string * V)) (k : string) (v v' : V) :
  dict_keys (dict_set (dict_set d k v) k v') = dict_keys (dict_set d k v).
Proof.
  unfold dict_keys. induction d as [|[k0 v0] d IH]; simpl.
  - now rewrite String.eqb_refl.
  - destruct (String.eqb k0 k) eqn:E; simpl; rewrite E; [reflexivity|].
    simpl. now rewrite IH.
Qed.

End DictFacts.

(** The slice [s[:n]] is a prefix of [s], of [n] characters or of all
    of them. *)
Lemma slice_to_prefix (s : string) :
  forall n, exists rest,
    s = slice_to n s ++ rest
    /\ str_len (slice_to n s) = Nat.min n (str_len s).
Proof.
  induction s as [|a s IH]; intros n.
  - exists "". split; [reflexivity|]. simpl. now rewrite Nat.min_0_r.
  - simpl. destruct (is_continuation a) eqn:Ha.
    + destruct (IH n) as (rest & Hs & Hlen). exists rest.
      simpl. rewrite Ha. split; [now rewrite <- Hs|exact Hlen].
    + destruct n as [|n].
      * exists (String a s). split; reflexivity.
      * destruct (IH n) as (rest & Hs & Hlen). exists rest.
        simpl. rewrite Ha. split; [now rewrite <- Hs|now rewrite Hlen].
Qed.

Lemma slice_to_all (s : string) :
  forall n, (str_len s <= n)%nat -> slice_to n s = s.
Proof.
  induction s as [|a s IH]; intros n Hn; [reflexivity|].
  simpl in Hn |- *. destruct (is_continuation a).
  - now rewrite IH.
  - destruct n as [|n]; [lia|]. rewrite IH by lia. reflexivity.
Qed.

(** X27. The slice of the address in the file name never fails: the
    name carries a prefix of the address of at most six characters, and
    an address of six characters or fewer, the empty one included, is
    used whole. *)
Theorem report_filename_short_address (address chain timestamp : string) :
  (exists rest,
      address = slice_to 6 address ++ rest
      /\ str_len (slice_to 6 address) = Nat.min 6 (str_len address))
  /\ ((str_len address <= 6)%nat ->
      report_filename address chain timestamp
      = "reports/" ++ chain ++ "_" ++ address ++ "_" ++ timestamp ++ ".json")
  /\ report_filename "" chain timestamp
     = "reports/" ++ chain ++ "__" ++ timestamp ++ ".json".
Proof.
  split; [apply slice_to_prefix|]. split.
  - intros Hlen. unfold report_filename. now rewrite slice_to_all.
  - reflexivity.
Qed.

Section SaverProperties.

Variable makedirs : outcome unit.
Variable open_w : string -> outcome unit.
Variable json_dump : list Finding -> string.

(** X9. The writer raises exactly when the directory cannot be made. A
    file that cannot be opened is not an error to the caller: the call
    returns and the files are as they were. *)
Theorem save_scan_report_failures (address chain timestamp : string)
    (results : list Finding) (files : list (string * string)) :
  let run := save_scan_report makedirs open_w json_dump address chain results
               timestamp files in
  (forall e, fst run = Raised e <-> makedirs = Raised e)
  /\ (forall e, makedirs = Raised e -> snd run = files)
  /\ (forall e, open_w (report_filename address chain timestamp) = Raised e ->
                snd run = files
                /\ (makedirs = Returned tt -> fst run = Returned tt)).
Proof.
  cbv zeta. unfold save_scan_report.
  destruct makedirs as [[]|e0];
    destruct (open_w (report_filename address chain timestamp)) as [[]|e1];
    cbn [fst snd]; repeat split; intros; try discriminate; try congruence;
    try reflexivity.
Qed.

(** X10. After a save that could open its file, the file named
    [reports/<chain>_<first six characters of the address>_<timestamp>.json]
    holds the serialized results, and every other file is as it was. *)
Theorem save_scan_report_written (address chain timestamp : string)
    (results : list Finding) (files : list (string * string)) :
  makedirs = Returned tt ->
  open_w (report_filename address chain timestamp) = Returned tt ->
  let run := save_scan_report makedirs open_w json_dump address chain results
               timestamp files in
  fst run = Returned tt
  /\ dict_get (snd run)
       ("reports/" ++ chain ++ "_" ++ slice_to 6 address ++ "_" ++ timestamp ++ ".json")
     = Some (json_dump results)
  /\ (forall other, other <> report_filename address chain timestamp ->
                    dict_get (snd run) other = dict_get files other).
Proof.
  intros Hdir Hopen. cbv zeta. unfold save_scan_report. rewrite Hdir, Hopen.
  cbn [fst snd]. split; [reflexivity|]. split.
  - apply dict_get_set_same.
  - intros other Hne. now apply dict_get_set_other.
Qed.

(** X11. The file name keeps only the first six characters of the
    address. Two addresses that share them, saved for the same chain in
    the same second, go to the same file: the second report replaces the
    first, and the files are what the second save alone would leave. *)
Theorem save_scan_report_collision (address1 address2 chain timestamp : string)
    (results1 results2 : list Finding) (files : list (string * string)) :
  makedirs = Returned tt ->
  open_w (report_filename address1 chain timestamp) = Returned tt ->
  slice_to 6 address1 = slice_to 6 address2 ->
  let files1 := snd (save_scan_report makedirs open_w json_dump address1 chain
                       results1 timestamp files) in
  let files2 := snd (save_scan_report makedirs open_w json_dump address2 chain
                       results2 timestamp files1) in
  report_filename address2 chain timestamp = report_filename address1 chain timestamp
  /\ dict_get files2 (report_filename address1 chain timestamp)
     = Some (json_dump results2)
  /\ dict_keys files2 = dict_keys files1
  /\ files2 = snd (save_scan_report makedirs open_w json_dump address2 chain
                     results2 timestamp files).
Proof.
  intros Hdir Hopen Hslice. cbv zeta.
  assert (Hname : report_filename address2 chain timestamp
                  = report_filename address1 chain timestamp).
  { unfold report_filename. now rewrite Hslice. }
  unfold save_scan_report. rewrite Hdir, Hname, Hopen. cbn [fst snd].
  split; [reflexivity|]. split; [apply dict_get_set_same|].
  split; [apply dict_keys_set_set|apply dict_set_set].
Qed.

End SaverProperties.

(* ------------------------------------------------------------------ *)
(** * The paths of the on-chain prober *)
(* ------------------------------------------------------------------ *)

Local Open Scope io_scope.

Section ProberPaths.

Variable lower : string -> string.
Variable title : string -> string.
Variable ETH_RPC_URL : string.
Variable BSC_RPC_URL : string.
Variable web3 : string -> node.
Variable to_checksum_address : string -> outcome string.

(** The four steps after the code read, with the entries they leave. *)
Lemma sub_probes_entries (w3 : node) (address : string) (log : list call) :
  (result <- token_info w3 address [] ;;
   result <- owner_detection w3 address result ;;
   result <- transfer_presence w3 address result ;;
   result <- honeypot_indicator result ;;
   ret result) log
  = (Returned [ ("token", token_of w3 address); ("owner", owner_of w3 address);
                ("transfer_test", transfer_test_of (all_functions w3 address));
                ("honeypot_risk",
                 if str_in "✅" (transfer_test_of (all_functions w3 address))
                 then "🟢 Transfer function present"
                 else "🔴 Possible Honeypot (transfer() missing)") ],
     (log ++ token_owner_calls w3 address
          ++ [AllFunctions (all_functions w3 address)])%list).
Proof.
  unfold token_info, owner_detection, transfer_presence, honeypot_indicator,
    token_owner_calls, transfer_test_of, token_of, owner_of,
    try_except, io_bind, perform, lift, ret.
  destruct (name_call w3 address) as [name|e1];
    [destruct (symbol_call w3 address) as [symbol|e2]|];
    destruct (owner_call w3 address) as [owner|e3];
    destruct (all_functions w3 address) as [fn_names|e4];
    try destruct (existsb (String.eqb "transfer") fn_names);
    cbn -[str_in]; rewrite <- ?app_assoc; cbn [app]; reflexivity.
Qed.

Lemma unsupported_lookup (chain : string) :
  unsupported lower ETH_RPC_URL BSC_RPC_URL chain
  <-> dict_get (RPC_MAP ETH_RPC_URL BSC_RPC_URL) (lower chain) = None
      \/ dict_get (RPC_MAP ETH_RPC_URL BSC_RPC_URL) (lower chain) = Some "".
Proof.
  unfold unsupported, RPC_MAP. cbn [dict_get].
  destruct (String.eqb_spec "ethereum" (lower chain)) as [E|E].
  - rewrite <- E. split.
    + intros [[_ ->]|[[H _]|[H _]]]; [now right|discriminate H|now contradiction H].
    + intros [H|H]; [discriminate H|]. injection H as ->. now left.
  - destruct (String.eqb_spec "bsc" (lower chain)) as [B|B].
    + rewrite <- B. split.
      * intros [[H _]|[[_ ->]|[_ H]]];
          [discriminate H|now right|now contradiction H].
      * intros [H|H]; [discriminate H|]. injection H as ->. right. now left.
    + split; [now left|]. intros _. right. right. split; congruence.
Qed.

(** Every run of the prober from the empty call log, path by path, with
    the calls it made. *)
Lemma check_honeypot_and_owner_paths (address chain : string) :
  let run := check_honeypot_and_owner lower title ETH_RPC_URL BSC_RPC_URL web3
               to_checksum_address address chain [] in
  (unsupported lower ETH_RPC_URL BSC_RPC_URL chain
   /\ run = (Returned [("error", "Unsupported chain '" ++ chain
                                 ++ "'. Use 'ethereum' or 'bsc'.")], []))
  \/ exists rpc_url,
       dict_get (RPC_MAP ETH_RPC_URL BSC_RPC_URL) (lower chain) = Some rpc_url
       /\ rpc_url <> ""
       /\ ((is_connected (web3 rpc_url) = false
            /\ run = (Returned [("error", "Cannot connect to " ++ title chain
                                          ++ " RPC node.")],
                      [IsConnected false]))
           \/ (is_connected (web3 rpc_url) = true
               /\ ((exists e, to_checksum_address address = Raised e
                              /\ run = (Returned [("error", "Invalid address format.")],
                                        [IsConnected true]))
                   \/ exists a,
                        to_checksum_address address = Returned a
                        /\ ((get_code (web3 rpc_url) a = Returned []
                             /\ run = (Returned [("error",
                                                  "No contract code found (EOA address).")],
                                       [IsConnected true; GetCode a (Returned [])]))
                            \/ (exists e,
                                   get_code (web3 rpc_url) a = Raised e
                                   /\ run = (Raised e,
                                             [IsConnected true; GetCode a (Raised e)]))
                            \/ (exists b code,
                                   get_code (web3 rpc_url) a = Returned (b :: code)
                                   /\ run
                                      = (Returned
                                           [ ("token", token_of (web3 rpc_url) a);
                                             ("owner", owner_of (web3 rpc_url) a);
                                             ("transfer_test",
                                              transfer_test_of
                                                (all_functions (web3 rpc_url) a));
                                             ("honeypot_risk",
                                              if str_in "✅"
                                                   (transfer_test_of
                                                      (all_functions (web3 rpc_url) a))
                                              then "🟢 Transfer function present"
                                              else "🔴 Possible Honeypot (transfer() missing)") ],
                                         ([IsConnected true;
                                           GetCode a (Returned (b :: code))]
                                          ++ token_owner_calls (web3 rpc_url) a
                                          ++ [AllFunctions
                                                (all_functions (web3 rpc_url) a)])%list)))))).
Proof.
  cbv zeta. pose proof (unsupported_lookup chain) as Hun.
  unfold check_honeypot_and_owner.
  destruct (dict_get (RPC_MAP ETH_RPC_URL BSC_RPC_URL) (lower chain))
    as [[|c0 url]|].
  1, 3: left; split; [apply Hun; auto|reflexivity].
  right. exists (String c0 url). split; [reflexivity|]. split; [discriminate|].
  set (w3 := web3 (String c0 url)).
  rewrite io_bind_perform. cbn [app].
  destruct (is_connected w3) eqn:Hconn; cbn [negb]; [right|left; now split].
  split; [reflexivity|].
  destruct (to_checksum_address address) as [a|e]; [right|left; now exists e].
  exists a. split; [reflexivity|].
  rewrite io_bind_perform. cbn [app].
  destruct (get_code w3 a) as [[|b code]|e] eqn:Hcode.
  - left. now split.
  - right; right. exists b, code. split; [reflexivity|].
    rewrite io_bind_lift_returned.
    replace (Z.of_nat (List.length (b :: code)) =? 0) with false
      by (symmetry; apply Z.eqb_neq; cbn [List.length]; lia).
    cbn [orb]. cbv beta zeta.
    apply (sub_probes_entries w3 a
             (([] ++ [IsConnected true]) ++ [GetCode a (Returned (b :: code))])).
  - right; left. exists e. now split.
Qed.

(** X12. The prober makes no call at all exactly when the chain has no
    usable RPC URL: its lowercase name is neither [ethereum] nor [bsc],
    or the URL configured for it is the empty string. The result is then
    the unsupported-chain error, with the chain as it was given. *)
Theorem check_honeypot_and_owner_unsupported (address chain : string) :
  let run := check_honeypot_and_owner lower title ETH_RPC_URL BSC_RPC_URL web3
               to_checksum_address address chain [] in
  (snd run = []
   <-> (lower chain = "ethereum" /\ ETH_RPC_URL = "")
       \/ (lower chain = "bsc" /\ BSC_RPC_URL = "")
       \/ (lower chain <> "ethereum" /\ lower chain <> "bsc"))
  /\ (snd run = [] ->
      fst run = Returned [("error", "Unsupported chain '" ++ chain
                                    ++ "'. Use 'ethereum' or 'bsc'.")]).
Proof.
  cbv zeta. fold (unsupported lower ETH_RPC_URL BSC_RPC_URL chain).
  pose proof (check_honeypot_and_owner_paths address chain) as Hpaths.
  cbv zeta in Hpaths.
  destruct Hpaths as [[Hun ->]|(rpc_url & Hrpc & Hne & Hrest)].
  - cbn [fst snd]. split; [tauto|reflexivity].
  - assert (Hsup : ~ unsupported lower ETH_RPC_URL BSC_RPC_URL chain).
    { intros Hun. apply unsupported_lookup in Hun. rewrite Hrpc in Hun.
      destruct Hun as [H|H]; [discriminate H|]. injection H as H. contradiction. }
    destruct Hrest as [[_ ->]|[_ [(e & _ & ->)|(a & _ & [[_ ->]|[(e & _ & ->)|
      (b & code & _ & ->)]])]]]; cbn [fst snd app];
      (split; [split; [discriminate|tauto]|discriminate]).
Qed.

(** X13. The prober raises exactly when the code read does, with the
    exception of the code read; an exception of the name, symbol, owner
    or enumeration call never reaches the caller. *)
Theorem check_honeypot_and_owner_raises_iff (address chain : string) (e : exn) :
  let run := check_honeypot_and_owner lower title ETH_RPC_URL BSC_RPC_URL web3
               to_checksum_address address chain [] in
  fst run = Raised e <-> exists a, In (GetCode a (Raised e)) (snd run).
Proof.
  cbv zeta.
  pose proof (check_honeypot_and_owner_paths address chain) as Hpaths.
  cbv zeta in Hpaths.
  destruct Hpaths as [[_ ->]|(rpc_url & _ & _ & [[_ ->]|[_ [(e' & _ & ->)|
    (a & _ & [[_ ->]|[(e' & _ & ->)|(b & code & _ & ->)]])]]])];
    cbn [fst snd].
  - split; [discriminate|intros (a & [])].
  - split; [discriminate|intros (a & [H|[]]); discriminate H].
  - split; [discriminate|intros (a & [H|[]]); discriminate H].
  - split; [discriminate|intros (a' & [H|[H|[]]]); discriminate H].
  - split.
    + intros H. injection H as ->. exists a. right. now left.
    + intros (a' & [H|[H|[]]]); [discriminate H|]. now injection H as _ ->.
  - split; [discriminate|]. intros (a' & Hin).
    destruct (token_owner_calls_sub_probes (web3 rpc_url) a) as (_ & _ & Hnone).
    apply in_app_or in Hin. destruct Hin as [Hin|Hin].
    { simpl in Hin. destruct Hin as [H|[H|[]]]; discriminate H. }
    apply in_app_or in Hin. destruct Hin as [Hin|Hin]; [now apply Hnone in Hin|].
    simpl in Hin. destruct Hin as [H|[]]. discriminate H.
Qed.

(** X14. On a contract with code, each entry of the result is fixed by
    the answer to its own call: the token is [name (symbol)] when both
    calls answer and [Unknown Token] when either fails, the owner is the
    answer of [owner()] or its fallback text, and the transfer test and
    the honeypot indicator follow the enumeration. *)
Theorem check_honeypot_and_owner_entries (address chain rpc_url a : string)
    (b : Byte.byte) (code : list Byte.byte) :
  dict_get (RPC_MAP ETH_RPC_URL BSC_RPC_URL) (lower chain) = Some rpc_url ->
  rpc_url <> "" ->
  is_connected (web3 rpc_url) = true ->
  to_checksum_address address = Returned a ->
  get_code (web3 rpc_url) a = Returned (b :: code) ->
  let w3 := web3 rpc_url in
  fst (check_honeypot_and_owner lower title ETH_RPC_URL BSC_RPC_URL web3
         to_checksum_address address chain [])
  = Returned
      [ ("token",
         match name_call w3 a, symbol_call w3 a with
         | Returned name, Returned symbol => name ++ " (" ++ symbol ++ ")"
         | _, _ => "Unknown Token"
         end);
        ("owner",
         match owner_call w3 a with
         | Returned owner => owner
         | Raised _ => "⚠️ Owner() not found (may use custom access control)."
         end);
        ("transfer_test",
         match all_functions w3 a with
         | Returned fn_names =>
             if existsb (String.eqb "transfer") fn_names
             then "✅ Transfer function exists"
             else "❌ Missing transfer()"
         | Raised _ => "⚠️ Transfer check failed"
         end);
        ("honeypot_risk",
         match all_functions w3 a with
         | Returned fn_names =>
             if existsb (String.eqb "transfer") fn_names
             then "🟢 Transfer function present"
             else "🔴 Possible Honeypot (transfer() missing)"
         | Raised _ => "🔴 Possible Honeypot (transfer() missing)"
         end) ].
Proof.
  intros Hrpc Hne Hconn Hsum Hcode. cbv zeta.
  pose proof (check_honeypot_and_owner_paths address chain) as Hpaths.
  cbv zeta in Hpaths.
  destruct Hpaths as [[Hun _]|(rpc_url' & Hrpc' & _ & Hrest)].
  { apply unsupported_lookup in Hun. rewrite Hrpc in Hun.
    destruct Hun as [H|H]; [discriminate H|]. injection H as H. contradiction. }
  rewrite Hrpc in Hrpc'. injection Hrpc' as <-.
  destruct Hrest as [[H _]|[_ [(e & H & _)|(a' & Ha & Hrest)]]];
    [congruence|congruence|].
  rewrite Hsum in Ha. injection Ha as <-.
  destruct Hrest as [[H _]|[(e & H & _)|(b' & code' & _ & ->)]];
    [congruence|congruence|].
  cbn [fst]. unfold token_of, owner_of, transfer_test_of.
  destruct (all_functions (web3 rpc_url) a) as [fn_names|e4];
    [destruct (existsb (String.eqb "transfer") fn_names)|]; reflexivity.
Qed.

(** X15. On a contract with code the three steps run whatever the
    others did: the calls are the connection test, the code read,
    [name()], then [symbol()] only when [name()] answered, then
    [owner()] and the enumeration, in this order. *)
Theorem check_honeypot_and_owner_calls (address chain rpc_url a : string)
    (b : Byte.byte) (code : list Byte.byte) :
  dict_get (RPC_MAP ETH_RPC_URL BSC_RPC_URL) (lower chain) = Some rpc_url ->
  rpc_url <> "" ->
  is_connected (web3 rpc_url) = true ->
  to_checksum_address address = Returned a ->
  get_code (web3 rpc_url) a = Returned (b :: code) ->
  let w3 := web3 rpc_url in
  snd (check_honeypot_and_owner lower title ETH_RPC_URL BSC_RPC_URL web3
         to_checksum_address address chain [])
  = ([IsConnected true; GetCode a (Returned (b :: code)); CallName (name_call w3 a)]
     ++ match name_call w3 a with
        | Returned _ => [CallSymbol (symbol_call w3 a)]
        | Raised _ => []
        end
     ++ [CallOwner (owner_call w3 a); AllFunctions (all_functions w3 a)])%list.
Proof.
  intros Hrpc Hne Hconn Hsum Hcode. cbv zeta.
  pose proof (check_honeypot_and_owner_paths address chain) as Hpaths.
  cbv zeta in Hpaths.
  destruct Hpaths as [[Hun _]|(rpc_url' & Hrpc' & _ & Hrest)].
  { apply unsupported_lookup in Hun. rewrite Hrpc in Hun.
    destruct Hun as [H|H]; [discriminate H|]. injection H as H. contradiction. }
  rewrite Hrpc in Hrpc'. injection Hrpc' as <-.
  destruct Hrest as [[H _]|[_ [(e & H & _)|(a' & Ha & Hrest)]]];
    [congruence|congruence|].
  rewrite Hsum in Ha. injection Ha as <-.
  destruct Hrest as [[H _]|[(e & H & _)|(b' & code' & Hcode' & ->)]];
    [congruence|congruence|].
  rewrite Hcode in Hcode'. injection Hcode' as <- <-.
  cbn [snd]. unfold token_owner_calls.
  destruct (name_call (web3 rpc_url) a); reflexivity.
Qed.

(** X16. An address that fails the checksum conversion is never sent to
    the node: no code is read and no contract call is made. The
    invalid-address error is the result exactly when the chain is
    supported and its node is connected; otherwise the earlier error
    wins. *)
Theorem check_honeypot_and_owner_invalid_address (address chain : string) (e : exn) :
  to_checksum_address address = Raised e ->
  let run := check_honeypot_and_owner lower title ETH_RPC_URL BSC_RPC_URL web3
               to_checksum_address address chain [] in
  (forall c, In c (snd run) -> exists answer, c = IsConnected answer)
  /\ (exists msg, fst run = Returned [("error", msg)])
  /\ (fst run = Returned [("error", "Invalid address format.")]
      <-> snd run = [IsConnected true]).
Proof.
  intros Hsum. cbv zeta.
  pose proof (check_honeypot_and_owner_paths address chain) as Hpaths.
  cbv zeta in Hpaths.
  destruct Hpaths as [[_ ->]|(rpc_url & _ & _ & [[_ ->]|[_ [(e' & _ & ->)|
    (a & Ha & _)]]])]; [| | |congruence]; cbn [fst snd].
  - split; [intros c []|]. split; [eexists; reflexivity|].
    split; intros H; [injection H as H|]; discriminate H.
  - split; [intros c [<-|[]]; now eexists|]. split; [eexists; reflexivity|].
    split; intros H; [injection H as H|]; discriminate H.
  - split; [intros c [<-|[]]; now eexists|]. split; [eexists; reflexivity|].
    split; reflexivity.
Qed.

End ProberPaths.

Local Close Scope io_scope.

(* ------------------------------------------------------------------ *)
(** * Properties of the command line tool *)
(* ------------------------------------------------------------------ *)

Section CliProperties.

Variable lower : string -> string.
Variable title : string -> string.
Variable fetch_json : string -> outcome json.
Variable ETH_RPC_URL : string.
Variable BSC_RPC_URL : string.
Variable web3 : string -> node.
Variable to_checksum_address : string -> outcome string.
Variable makedirs : outcome unit.
Variable open_w : string -> outcome unit.
Variable json_dump : list Finding -> string.
Variable now : string.
Variable str_of_exn : exn -> string.
Variable str_of_dict : list (string * string) -> string.

Local Abbreviation main :=
  (Rugcheck.main lower title fetch_json ETH_RPC_URL BSC_RPC_URL web3
     to_checksum_address makedirs open_w json_dump now str_of_exn str_of_dict).

Local Abbreviation probe address chain :=
  (check_honeypot_and_owner lower title ETH_RPC_URL BSC_RPC_URL web3
     to_checksum_address address chain []).

(** A run of the tool once the static analysis has returned. *)
Lemma main_after_analysis (address chain : string) (chain_arg : option string)
    (w : Rugcheck.world) (results : list Finding) :
  chain = match chain_arg with Some c => c | None => "ethereum" end ->
  analyze_contract lower fetch_json address chain = Returned results ->
  main address chain_arg w
  = (let onchain_results :=
       match fst (probe address "ethereum") with
       | Returned onchain_results => onchain_results
       | Raised e => [("error", str_of_exn e)]
       end in
     let combined_report :=
       (results ++ [ {| status := "🔗 On-chain";
                        message := str_of_dict onchain_results;
                        severity := "Info" |} ])%list in
     let saved :=
       save_scan_report makedirs open_w json_dump address chain combined_report
         now (Rugcheck.files w) in
     (fst saved,
      {| Rugcheck.calls := (Rugcheck.calls w ++ snd (probe address "ethereum"))%list;
         Rugcheck.files := snd saved |})).
Proof.
  intros -> Hrun. unfold Rugcheck.main, Rugcheck.onchain_analysis.
  rewrite Hrun.
  destruct (probe address "ethereum") as [[onchain_results|e] made];
    cbn [fst snd Rugcheck.calls Rugcheck.files];
    match goal with
    | |- context [save_scan_report ?a ?b ?c ?d ?e ?f ?g ?h] =>
        destruct (save_scan_report a b c d e f g h) as [saved files']
    end; reflexivity.
Qed.

(** X17. The tool probes the Ethereum node whatever [--chain] says: the
    web3 calls of a run are those of the probe of the address on
    [ethereum], while the static analysis and the name of the report
    follow the chain given. The saved report closes with the on-chain
    Finding made from that Ethereum probe. *)
Theorem main_probes_ethereum (address : string) (chain_arg : option string)
    (w : Rugcheck.world) (results : list Finding) :
  let chain := match chain_arg with Some c => c | None => "ethereum" end in
  analyze_contract lower fetch_json address chain = Returned results ->
  let run := main address chain_arg w in
  Rugcheck.calls (snd run)
  = (Rugcheck.calls w ++ snd (probe address "ethereum"))%list
  /\ (makedirs = Returned tt ->
      open_w (report_filename address chain now) = Returned tt ->
      dict_get (Rugcheck.files (snd run))
        ("reports/" ++ chain ++ "_" ++ slice_to 6 address ++ "_" ++ now ++ ".json")
      = Some (json_dump
                (results
                 ++ [ {| status := "🔗 On-chain";
                         message :=
                           str_of_dict
                             match fst (probe address "ethereum") with
                             | Returned onchain_results => onchain_results
                             | Raised e => [("error", str_of_exn e)]
                             end;
                         severity := "Info" |} ])%list)).
Proof.
  cbv zeta. intros Hrun.
  rewrite (main_after_analysis address _ chain_arg w results eq_refl Hrun).
  cbv zeta. cbn [fst snd Rugcheck.calls Rugcheck.files].
  split; [reflexivity|]. intros Hdir Hopen.
  unfold save_scan_report. rewrite Hdir, Hopen. cbn [snd].
  apply dict_get_set_same.
Qed.

(** X18. The tool stops on an exception in two cases only: the static
    analysis raised, and then no web3 call was made and no file written;
    or the reports directory could not be made. An exception of the
    on-chain probe and a report file that cannot be opened do not stop
    it. *)
Theorem main_raises (address : string) (chain_arg : option string)
    (w : Rugcheck.world) :
  let chain := match chain_arg with Some c => c | None => "ethereum" end in
  let run := main address chain_arg w in
  (forall e,
      fst run = Raised e
      <-> analyze_contract lower fetch_json address chain = Raised e
          \/ ((exists results,
                  analyze_contract lower fetch_json address chain = Returned results)
              /\ makedirs = Raised e))
  /\ (forall e, analyze_contract lower fetch_json address chain = Raised e ->
                snd run = w).
Proof.
  cbv zeta.
  destruct (analyze_contract lower fetch_json address
              match chain_arg with Some c => c | None => "ethereum" end)
    as [results|e0] eqn:Hrun.
  - rewrite (main_after_analysis address _ chain_arg w results eq_refl Hrun).
    cbv zeta. cbn [fst snd]. split; [|discriminate].
    intros e. unfold save_scan_report.
    destruct makedirs as [[]|e1].
    + destruct (open_w _) as [[]|e2]; cbn [fst];
        (split; [discriminate|intros [H|[_ H]]; discriminate H]).
    + cbn [fst]. split.
      * intros H. right. split; [now exists results|exact H].
      * intros [H|[_ H]]; [discriminate H|exact H].
  - unfold Rugcheck.main. rewrite Hrun. cbn [fst snd]. split.
    + intros e. split; [intros H; injection H as ->; now left|].
      intros [H|[(results & H) _]]; [injection H as ->; reflexivity|discriminate H].
    + reflexivity.
Qed.

End CliProperties.

(* ------------------------------------------------------------------ *)
(** * Properties of the Telegram bot handlers *)
(* ------------------------------------------------------------------ *)

(** Close a goal on what a handler left of a session: the fields it did
    not touch, and the messages it added. *)
Ltac session_frame :=
  cbn [fst snd TelegramBot.sent TelegramBot.user_data TelegramBot.calls
       TelegramBot.files];
  repeat split; try reflexivity;
  eexists; rewrite <- ?app_assoc;
  (split; [first [reflexivity | symmetry; apply app_nil_r] | simpl; lia]).

Section BotProperties.

Variable lower : string -> string.
Variable title : string -> string.
Variable fetch_json : string -> outcome json.
Variable ETH_RPC_URL : string.
Variable BSC_RPC_URL : string.
Variable web3 : string -> node.
Variable to_checksum_address : string -> outcome string.
Variable makedirs : outcome unit.
Variable open_w : string -> outcome unit.
Variable json_dump : list Finding -> string.
Variable now : string.
Variable str_of_exn : exn -> string.
Variable telegram : string -> option string -> outcome unit.

Local Abbreviation reply_text := (TelegramBot.reply_text telegram).

Local Abbreviation chain_of_args := (TelegramBot.chain_of_args lower).

Local Abbreviation scan_try :=
  (TelegramBot.scan_try lower title fetch_json ETH_RPC_URL BSC_RPC_URL web3
     to_checksum_address makedirs open_w json_dump now telegram).

Local Abbreviation scan :=
  (TelegramBot.scan lower title fetch_json ETH_RPC_URL BSC_RPC_URL web3
     to_checksum_address makedirs open_w json_dump now str_of_exn telegram).

Local Abbreviation score :=
  (TelegramBot.score lower title fetch_json str_of_exn telegram).

Local Abbreviation last := (TelegramBot.last title telegram).

Local Abbreviation probe address chain :=
  (check_honeypot_and_owner lower title ETH_RPC_URL BSC_RPC_URL web3
     to_checksum_address address chain []).

(** A reply changes nothing but the messages delivered, and adds at most
    the one it was given. *)
Lemma reply_text_frame (text : string) (parse_mode : option string)
    (s : TelegramBot.session) :
  let run := reply_text text parse_mode s in
  TelegramBot.user_data (snd run) = TelegramBot.user_data s
  /\ TelegramBot.calls (snd run) = TelegramBot.calls s
  /\ TelegramBot.files (snd run) = TelegramBot.files s
  /\ fst run = telegram text parse_mode
  /\ TelegramBot.sent (snd run)
     = (TelegramBot.sent s
        ++ match telegram text parse_mode with
           | Returned _ => [(text, parse_mode)]
           | Raised _ => []
           end)%list.
Proof.
  cbv zeta. unfold TelegramBot.reply_text.
  destruct (telegram text parse_mode) as [[]|e]; cbn [fst snd];
    rewrite ?app_nil_r; repeat split; reflexivity.
Qed.

(** The chain a handler works on is [ethereum] or [bsc] exactly when no
    chain was given or the lowercase of the one given is one of four
    names. *)
Lemma chain_of_args_supported (rest : list string) :
  TelegramBot.in_list (chain_of_args rest) ["ethereum"; "bsc"] = true
  <-> match rest with
      | [] => True
      | c :: _ => In (lower c) ["eth"; "ethereum"; "bnb"; "bsc"]
      end.
Proof.
  unfold TelegramBot.chain_of_args, TelegramBot.in_list.
  destruct rest as [|c rest]; [split; [tauto|reflexivity]|].
  cbn [existsb orb].
  destruct (String.eqb_spec "eth" (lower c)) as [E1|E1];
    [split; [intros _; left; exact E1|reflexivity]|].
  destruct (String.eqb_spec "bnb" (lower c)) as [E2|E2];
    [split; [intros _; right; right; left; exact E2|reflexivity]|].
  destruct (String.eqb_spec "bsc" (lower c)) as [E3|E3];
    [split; [intros _; right; right; right; left; exact E3|reflexivity]|].
  cbn [orb].
  destruct (String.eqb_spec "ethereum" (lower c)) as [E4|E4];
    [split; [intros _; right; left; exact E4|reflexivity]|].
  destruct (String.eqb_spec "bsc" (lower c)) as [E5|E5]; [contradiction|].
  split; [discriminate|].
  intros [H|[H|[H|[H|[]]]]]; contradiction.
Qed.

(** The summary line a handler shows, on the two kinds of analyzer
    results. *)
Lemma static_summary_of_results (hits : list (string * (string * Z)))
    (extra : list Finding) (summary : Finding) :
  (forall item, In item hits -> In item checks) ->
  (forall f, In f extra -> is_summary f = false) ->
  is_summary summary = true ->
  TelegramBot.static_summary_of (rule_findings hits ++ extra ++ [summary])%list
  = message summary.
Proof.
  intros Hhits Hextra Hsum.
  assert (Hskip : forall (l : list Finding) (tail : list Finding),
             (forall f, In f l -> is_summary f = false) ->
             TelegramBot.static_summary_of (l ++ tail)%list
             = TelegramBot.static_summary_of tail).
  { induction l as [|f l IH]; intros tail Hl; [reflexivity|].
    change (TelegramBot.static_summary_of ((f :: l) ++ tail)%list)
      with (if String.eqb (status f) "📊 Summary" then message f
            else TelegramBot.static_summary_of (l ++ tail)%list).
    pose proof (Hl f (or_introl eq_refl)) as Hf. unfold is_summary in Hf.
    rewrite Hf. apply IH. intros g Hg. apply Hl. now right. }
  rewrite Hskip by (apply rule_findings_not_summary; exact Hhits).
  rewrite Hskip by exact Hextra.
  change (TelegramBot.static_summary_of [summary])
    with (if String.eqb (status summary) "📊 Summary" then message summary
          else "No summary.").
  unfold is_summary in Hsum. now rewrite Hsum.
Qed.

(** X19. [/scan] with a chain other than [eth], [ethereum], [bnb] and
    [bsc], case ignored, answers with the unsupported-chain notice and
    does nothing else: no analysis, no web3 call, no report file, and
    the last report is as it was. *)
Theorem scan_unsupported_chain (address c : string) (rest : list string)
    (s : TelegramBot.session) :
  ~ In (lower c) ["eth"; "ethereum"; "bnb"; "bsc"] ->
  let run := scan (address :: c :: rest) s in
  run = reply_text "⚠️ Unsupported chain. Use 'eth' or 'bsc'." None s
  /\ TelegramBot.user_data (snd run) = TelegramBot.user_data s
  /\ TelegramBot.calls (snd run) = TelegramBot.calls s
  /\ TelegramBot.files (snd run) = TelegramBot.files s.
Proof.
  intros Hnot. cbv zeta.
  assert (Hrun : scan (address :: c :: rest) s
                 = reply_text "⚠️ Unsupported chain. Use 'eth' or 'bsc'." None s).
  { unfold TelegramBot.scan.
    destruct (TelegramBot.in_list (chain_of_args (c :: rest)) ["ethereum"; "bsc"])
      eqn:Hin; [|reflexivity].
    apply chain_of_args_supported in Hin. contradiction. }
  rewrite Hrun. split; [reflexivity|].
  pose proof (reply_text_frame "⚠️ Unsupported chain. Use 'eth' or 'bsc'." None s)
    as Hframe. cbv zeta in Hframe. tauto.
Qed.

(** X20. [/score] only talks: whatever the arguments, the analyzer and
    Telegram do, it makes no web3 call, writes no file and leaves the
    last report alone; it delivers at most two messages, after those
    already sent. *)
Theorem score_frame (args : list string) (s : TelegramBot.session) :
  let run := score args s in
  TelegramBot.user_data (snd run) = TelegramBot.user_data s
  /\ TelegramBot.calls (snd run) = TelegramBot.calls s
  /\ TelegramBot.files (snd run) = TelegramBot.files s
  /\ exists replies,
       TelegramBot.sent (snd run) = (TelegramBot.sent s ++ replies)%list
       /\ (List.length replies <= 2)%nat.
Proof.
  cbv zeta.
  unfold TelegramBot.score, TelegramBot.score_try, TelegramBot.reply_text.
  destruct args as [|address rest].
  - destruct (telegram _ _) as [[]|e]; session_frame.
  - destruct (telegram _ None) as [[]|e]; [|session_frame].
    destruct (analyze_contract lower fetch_json address (chain_of_args rest))
      as [results|e].
    + destruct (telegram ("✅ " ++ _) None) as [[]|e]; [session_frame|].
      destruct (telegram _ None) as [[]|e']; session_frame.
    + destruct (telegram _ None) as [[]|e']; session_frame.
Qed.

(** A reply that Telegram delivers. *)
Lemma reply_text_delivered (text : string) (parse_mode : option string)
    (s : TelegramBot.session) :
  telegram text parse_mode = Returned tt ->
  reply_text text parse_mode s
  = (Returned tt,
     {| TelegramBot.sent := (TelegramBot.sent s ++ [(text, parse_mode)])%list;
        TelegramBot.user_data := TelegramBot.user_data s;
        TelegramBot.calls := TelegramBot.calls s;
        TelegramBot.files := TelegramBot.files s |}).
Proof.
  intros Htel. unfold TelegramBot.reply_text. now rewrite Htel.
Qed.

(** A reply that Telegram rejects. *)
Lemma reply_text_rejected (text : string) (parse_mode : option string)
    (s : TelegramBot.session) (e : exn) :
  telegram text parse_mode = Raised e ->
  reply_text text parse_mode s = (Raised e, s).
Proof.
  intros Htel. unfold TelegramBot.reply_text. now rewrite Htel.
Qed.

(** X21. [/score] on a contract whose source is not verified does not
    show the 20/100 the scorer computed: the closing Finding of that
    case is not a summary, so the reply is the default text. *)
Theorem score_unverified (address : string) (rest : list string)
    (s : TelegramBot.session) :
  (forall text parse_mode, telegram text parse_mode = Returned tt) ->
  get_contract_source lower fetch_json address (chain_of_args rest)
  = Returned (JStr "") ->
  score (address :: rest) s
  = (Returned tt,
     {| TelegramBot.sent :=
          (TelegramBot.sent s
           ++ [ (("📊 Calculating risk score for " ++ address ++ " on "
                  ++ title (chain_of_args rest) ++ "...")%string, None);
                ("✅ No summary.", None) ])%list;
        TelegramBot.user_data := TelegramBot.user_data s;
        TelegramBot.calls := TelegramBot.calls s;
        TelegramBot.files := TelegramBot.files s |}).
Proof.
  intros Htel Hsrc. unfold TelegramBot.score. cbv zeta.
  rewrite (reply_text_delivered _ _ _ (Htel _ _)).
  unfold TelegramBot.score_try.
  rewrite (analyze_contract_not_verified lower fetch_json _ _ Hsrc).
  change (TelegramBot.static_summary_of
            [critical_finding; unverified_risk_finding 20])
    with "No summary.".
  rewrite (reply_text_delivered _ _ _ (Htel _ _)).
  cbn [TelegramBot.sent TelegramBot.user_data TelegramBot.calls TelegramBot.files].
  now rewrite <- app_assoc.
Qed.

(** X22. [/score] on a verified source replies with the message of the
    summary Finding: the issue count, the score, which lies between 25
    and 100, and the label of that score. *)
Theorem score_verified (address src : string) (rest : list string)
    (s : TelegramBot.session) :
  (forall text parse_mode, telegram text parse_mode = Returned tt) ->
  get_contract_source lower fetch_json address (chain_of_args rest)
  = Returned (JStr src) ->
  src <> "" ->
  exists n risk_score,
    score (address :: rest) s
    = (Returned tt,
       {| TelegramBot.sent :=
            (TelegramBot.sent s
             ++ [ (("📊 Calculating risk score for " ++ address ++ " on "
                    ++ title (chain_of_args rest) ++ "...")%string, None);
                  (("✅ " ++ "Verified: ✅ | Issues Found: " ++ str_of_int n
                    ++ " | Overall Risk: " ++ str_of_int risk_score
                    ++ "/100 (" ++ risk_label risk_score ++ ")")%string, None) ])%list;
          TelegramBot.user_data := TelegramBot.user_data s;
          TelegramBot.calls := TelegramBot.calls s;
          TelegramBot.files := TelegramBot.files s |})
    /\ 25 <= risk_score <= 100
    /\ 0 <= n <= 3.
Proof.
  intros Htel Hsrc Hne.
  pose proof (analyze_contract_closing lower fetch_json _ _ _ Hsrc Hne) as Hrun.
  pose proof (closing_counters_range lower src) as (Hscore & Hn & _).
  cbv zeta in Hrun, Hscore, Hn.
  set (st := safe_case _) in Hrun, Hscore, Hn.
  exists (issues st), (clamp (risk_score st)).
  split; [|split; assumption].
  unfold TelegramBot.score. cbv zeta.
  rewrite (reply_text_delivered _ _ _ (Htel _ _)).
  unfold TelegramBot.score_try. rewrite Hrun.
  assert (Hsum : TelegramBot.static_summary_of
                   (results st
                    ++ [summary_finding (issues st) (clamp (risk_score st))
                          (risk_label (clamp (risk_score st)))])%list
                 = message (summary_finding (issues st) (clamp (risk_score st))
                              (risk_label (clamp (risk_score st))))).
  { subst st.
    match goal with
    | |- context [safe_case ?st0] =>
        destruct (safe_case_counters st0) as (_ & _ & ->)
    end.
    cbn [results]. rewrite <- app_assoc.
    apply static_summary_of_results.
    - apply (matched_in_checks lower).
    - intros f Hf. destruct (_ =? 0); [|contradiction].
      destruct Hf as [<-|[]]. reflexivity.
    - reflexivity. }
  rewrite Hsum. cbn [message summary_finding].
  rewrite (reply_text_delivered _ _ _ (Htel _ _)).
  cbn [TelegramBot.sent TelegramBot.user_data TelegramBot.calls TelegramBot.files].
  now rewrite <- app_assoc.
Qed.

(** The session a scan works on once its probe has run. *)
Lemma scan_try_after_probe (address chain : string) (s : TelegramBot.session)
    (results : list Finding) :
  analyze_contract lower fetch_json address chain = Returned results ->
  scan_try address chain s
  = (let s1 := {| TelegramBot.sent := TelegramBot.sent s;
                  TelegramBot.user_data := TelegramBot.user_data s;
                  TelegramBot.calls :=
                    (TelegramBot.calls s ++ snd (probe address chain))%list;
                  TelegramBot.files := TelegramBot.files s |} in
     match fst (probe address chain) with
     | Raised e => (Raised e, s1)
     | Returned onchain_results =>
         let reply := TelegramBot.scan_reply title
                        (TelegramBot.static_summary_of results) chain
                        onchain_results in
         match makedirs with
         | Raised e => (Raised e, s1)
         | Returned _ =>
             reply_text reply (Some "Markdown")
               {| TelegramBot.sent := TelegramBot.sent s;
                  TelegramBot.user_data :=
                    dict_set (TelegramBot.user_data s) "last_report"
                      {| TelegramBot.address := address;
                         TelegramBot.chain := chain;
                         TelegramBot.summary := reply |};
                  TelegramBot.calls :=
                    (TelegramBot.calls s ++ snd (probe address chain))%list;
                  TelegramBot.files :=
                    snd (save_scan_report makedirs open_w json_dump address chain
                           results now (TelegramBot.files s)) |}
         end
     end).
Proof.
  intros Hrun. unfold TelegramBot.scan_try. rewrite Hrun.
  destruct (probe address chain) as [[onchain_results|e] made]; cbn [fst snd];
    [|reflexivity].
  cbn [TelegramBot.sent TelegramBot.user_data TelegramBot.calls TelegramBot.files].
  unfold save_scan_report. destruct makedirs as [[]|e]; [|reflexivity].
  destruct (open_w _) as [[]|e]; reflexivity.
Qed.

(** X23. When Telegram delivers what it is sent, [/scan] never raises,
    whatever the explorer, the node and the file system do: it returns
    after one message (usage, or unsupported chain) or two (the scanning
    notice, then the result or the failure notice). *)
Theorem scan_returns (args : list string) (s : TelegramBot.session) :
  (forall text parse_mode, telegram text parse_mode = Returned tt) ->
  let run := scan args s in
  fst run = Returned tt
  /\ exists replies,
       TelegramBot.sent (snd run) = (TelegramBot.sent s ++ replies)%list
       /\ (1 <= List.length replies <= 2)%nat.
Proof.
  intros Htel. cbv zeta. unfold TelegramBot.scan.
  destruct args as [|address rest].
  - rewrite (reply_text_delivered _ _ _ (Htel _ _)).
    cbn [fst snd TelegramBot.sent]. split; [reflexivity|].
    eexists. split; [reflexivity|simpl; lia].
  - cbv zeta.
    destruct (TelegramBot.in_list (chain_of_args rest) ["ethereum"; "bsc"]);
      cbn [negb].
    2: { rewrite (reply_text_delivered _ _ _ (Htel _ _)).
         cbn [fst snd TelegramBot.sent]. split; [reflexivity|].
         eexists. split; [reflexivity|simpl; lia]. }
    rewrite (reply_text_delivered _ _ _ (Htel _ _)).
    destruct (analyze_contract lower fetch_json address (chain_of_args rest))
      as [results|e] eqn:Hrun.
    + rewrite (scan_try_after_probe _ _ _ _ Hrun). cbv zeta.
      destruct (fst (probe address (chain_of_args rest))) as [onchain_results|e].
      * destruct makedirs as [[]|e];
          rewrite (reply_text_delivered _ _ _ (Htel _ _));
          cbn [fst snd TelegramBot.sent]; (split; [reflexivity|]);
          eexists; rewrite <- app_assoc; (split; [reflexivity|simpl; lia]).
      * rewrite (reply_text_delivered _ _ _ (Htel _ _)).
        cbn [fst snd TelegramBot.sent]. split; [reflexivity|].
        eexists. rewrite <- app_assoc. split; [reflexivity|simpl; lia].
    + unfold TelegramBot.scan_try. rewrite Hrun.
      rewrite (reply_text_delivered _ _ _ (Htel _ _)).
      cbn [fst snd TelegramBot.sent]. split; [reflexivity|].
      eexists. rewrite <- app_assoc. split; [reflexivity|simpl; lia].
Qed.

(** X24. After a scan whose analysis, probe and report directory went
    through, [/last] shows that scan again: the last report holds the
    address, the resolved chain and the very text that was sent, and the
    reply to [/last] is that text under its three header lines. A report
    file that could not be opened does not prevent this. *)
Theorem scan_then_last (address : string) (rest : list string)
    (s : TelegramBot.session) (results : list Finding)
    (onchain_results : list (string * string)) (made : list call) :
  (forall text parse_mode, telegram text parse_mode = Returned tt) ->
  TelegramBot.in_list (chain_of_args rest) ["ethereum"; "bsc"] = true ->
  analyze_contract lower fetch_json address (chain_of_args rest) = Returned results ->
  probe address (chain_of_args rest) = (Returned onchain_results, made) ->
  makedirs = Returned tt ->
  let chain := chain_of_args rest in
  let reply := TelegramBot.scan_reply title
                 (TelegramBot.static_summary_of results) chain onchain_results in
  let s1 := snd (scan (address :: rest) s) in
  dict_get (TelegramBot.user_data s1) "last_report"
  = Some {| TelegramBot.address := address;
            TelegramBot.chain := chain;
            TelegramBot.summary := reply |}
  /\ TelegramBot.sent s1
     = (TelegramBot.sent s
        ++ [ (("🔍 Scanning " ++ address ++ " on " ++ title chain ++ "...")%string,
              None);
             (reply, Some "Markdown") ])%list
  /\ TelegramBot.calls s1 = (TelegramBot.calls s ++ made)%list
  /\ last s1
     = (Returned tt,
        {| TelegramBot.sent :=
             (TelegramBot.sent s1
              ++ [ (("📝 *Last Scan Summary*" ++ TelegramBot.nl
                     ++ "Contract: `" ++ address ++ "`" ++ TelegramBot.nl
                     ++ "Chain: " ++ title chain ++ TelegramBot.nl
                     ++ TelegramBot.nl ++ reply)%string,
                    Some "Markdown") ])%list;
           TelegramBot.user_data := TelegramBot.user_data s1;
           TelegramBot.calls := TelegramBot.calls s1;
           TelegramBot.files := TelegramBot.files s1 |}).
Proof.
  intros Htel Hsupp Hrun Hprobe Hdir. cbv zeta.
  assert (Hscan : scan (address :: rest) s
            = (Returned tt,
               {| TelegramBot.sent :=
                    (TelegramBot.sent s
                     ++ [ (("🔍 Scanning " ++ address ++ " on "
                            ++ title (chain_of_args rest) ++ "...")%string, None);
                          (TelegramBot.scan_reply title
                             (TelegramBot.static_summary_of results)
                             (chain_of_args rest) onchain_results,
                           Some "Markdown") ])%list;
                  TelegramBot.user_data :=
                    dict_set (TelegramBot.user_data s) "last_report"
                      {| TelegramBot.address := address;
                         TelegramBot.chain := chain_of_args rest;
                         TelegramBot.summary :=
                           TelegramBot.scan_reply title
                             (TelegramBot.static_summary_of results)
                             (chain_of_args rest) onchain_results |};
                  TelegramBot.calls := (TelegramBot.calls s ++ made)%list;
                  TelegramBot.files :=
                    snd (save_scan_report makedirs open_w json_dump address
                           (chain_of_args rest) results now
                           (TelegramBot.files s)) |})).
  { unfold TelegramBot.scan. cbv zeta. rewrite Hsupp. cbn [negb].
    rewrite (reply_text_delivered _ _ _ (Htel _ _)).
    rewrite (scan_try_after_probe _ _ _ _ Hrun). cbv zeta.
    rewrite Hprobe. cbn [fst snd]. rewrite Hdir.
    rewrite (reply_text_delivered _ _ _ (Htel _ _)).
    cbn [TelegramBot.sent TelegramBot.user_data TelegramBot.calls
         TelegramBot.files].
    now rewrite <- app_assoc. }
  rewrite Hscan.
  cbn [snd TelegramBot.sent TelegramBot.user_data TelegramBot.calls
       TelegramBot.files].
  split; [apply dict_get_set_same|]. split; [reflexivity|]. split; [reflexivity|].
  unfold TelegramBot.last. cbn [TelegramBot.user_data].
  rewrite dict_get_set_same.
  rewrite (reply_text_delivered _ _ _ (Htel _ _)).
  reflexivity.
Qed.

(** X25. A scan that fails in the analysis, in the probe or on the
    reports directory leaves the last report and the files as they
    were, so [/last] still shows the scan before it; the user is sent
    the scanning notice and the failure notice with the exception. *)
Theorem scan_failure_keeps_last_report (address : string) (rest : list string)
    (s : TelegramBot.session) (e : exn) :
  (forall text parse_mode, telegram text parse_mode = Returned tt) ->
  TelegramBot.in_list (chain_of_args rest) ["ethereum"; "bsc"] = true ->
  (analyze_contract lower fetch_json address (chain_of_args rest) = Raised e
   \/ (exists results,
          analyze_contract lower fetch_json address (chain_of_args rest)
          = Returned results)
      /\ (fst (probe address (chain_of_args rest)) = Raised e
          \/ (exists onchain_results,
                 fst (probe address (chain_of_args rest)) = Returned onchain_results)
             /\ makedirs = Raised e)) ->
  let s1 := snd (scan (address :: rest) s) in
  TelegramBot.user_data s1 = TelegramBot.user_data s
  /\ TelegramBot.files s1 = TelegramBot.files s
  /\ TelegramBot.sent s1
     = (TelegramBot.sent s
        ++ [ (("🔍 Scanning " ++ address ++ " on " ++ title (chain_of_args rest)
               ++ "...")%string, None);
             (("❌ Scan failed: " ++ str_of_exn e)%string, None) ])%list
  /\ fst (last s1) = fst (last s)
  /\ exists text,
       TelegramBot.sent (snd (last s1)) = (TelegramBot.sent s1 ++ [text])%list
       /\ TelegramBot.sent (snd (last s)) = (TelegramBot.sent s ++ [text])%list.
Proof.
  intros Htel Hsupp Hfail. cbv zeta.
  assert (Hscan : exists made,
            scan (address :: rest) s
            = (Returned tt,
               {| TelegramBot.sent :=
                    (TelegramBot.sent s
                     ++ [ (("🔍 Scanning " ++ address ++ " on "
                            ++ title (chain_of_args rest) ++ "...")%string, None);
                          (("❌ Scan failed: " ++ str_of_exn e)%string, None) ])%list;
                  TelegramBot.user_data := TelegramBot.user_data s;
                  TelegramBot.calls := (TelegramBot.calls s ++ made)%list;
                  TelegramBot.files := TelegramBot.files s |})).
  { unfold TelegramBot.scan. cbv zeta. rewrite Hsupp. cbn [negb].
    rewrite (reply_text_delivered _ _ _ (Htel _ _)).
    destruct Hfail as [Hrun|[(results & Hrun) Hfail]].
    - unfold TelegramBot.scan_try. rewrite Hrun.
      rewrite (reply_text_delivered _ _ _ (Htel _ _)).
      cbn [TelegramBot.sent TelegramBot.user_data TelegramBot.calls
           TelegramBot.files].
      exists []. now rewrite <- app_assoc, app_nil_r.
    - rewrite (scan_try_after_probe _ _ _ _ Hrun). cbv zeta.
      exists (snd (probe address (chain_of_args rest))).
      destruct Hfail as [Hprobe|[(onchain_results & Hprobe) Hdir]];
        rewrite Hprobe; [|rewrite Hdir];
        rewrite (reply_text_delivered _ _ _ (Htel _ _));
        cbn [TelegramBot.sent TelegramBot.user_data TelegramBot.calls
             TelegramBot.files];
        now rewrite <- app_assoc. }
  destruct Hscan as (made & ->).
  cbn [snd TelegramBot.sent TelegramBot.user_data TelegramBot.calls
       TelegramBot.files].
  split; [reflexivity|]. split; [reflexivity|]. split; [reflexivity|].
  unfold TelegramBot.last. cbn [TelegramBot.user_data].
  destruct (dict_get (TelegramBot.user_data s) "last_report") as [r|];
    rewrite !(reply_text_delivered _ _ _ (Htel _ _));
    cbn [fst snd TelegramBot.sent]; (split; [reflexivity|]);
    eexists; split; reflexivity.
Qed.

(** X26. When Telegram rejects the formatted result of a scan that went
    through, the user is told that the scan failed, yet the scan is
    already stored: the last report holds it, and its report file is
    written. *)
Theorem scan_reply_rejected (address : string) (rest : list string)
    (s : TelegramBot.session) (results : list Finding)
    (onchain_results : list (string * string)) (made : list call) (e : exn) :
  (forall text, telegram text None = Returned tt) ->
  TelegramBot.in_list (chain_of_args rest) ["ethereum"; "bsc"] = true ->
  analyze_contract lower fetch_json address (chain_of_args rest) = Returned results ->
  probe address (chain_of_args rest) = (Returned onchain_results, made) ->
  makedirs = Returned tt ->
  let chain := chain_of_args rest in
  let reply := TelegramBot.scan_reply title
                 (TelegramBot.static_summary_of results) chain onchain_results in
  telegram reply (Some "Markdown") = Raised e ->
  let run := scan (address :: rest) s in
  fst run = Returned tt
  /\ TelegramBot.sent (snd run)
     = (TelegramBot.sent s
        ++ [ (("🔍 Scanning " ++ address ++ " on " ++ title chain ++ "...")%string,
              None);
             (("❌ Scan failed: " ++ str_of_exn e)%string, None) ])%list
  /\ dict_get (TelegramBot.user_data (snd run)) "last_report"
     = Some {| TelegramBot.address := address;
               TelegramBot.chain := chain;
               TelegramBot.summary := reply |}
  /\ (open_w (report_filename address chain now) = Returned tt ->
      dict_get (TelegramBot.files (snd run)) (report_filename address chain now)
      = Some (json_dump results)).
Proof.
  intros Htel Hsupp Hrun Hprobe Hdir. cbv zeta. intros Hreject.
  unfold TelegramBot.scan. cbv zeta. rewrite Hsupp. cbn [negb].
  rewrite (reply_text_delivered _ _ _ (Htel _)).
  rewrite (scan_try_after_probe _ _ _ _ Hrun). cbv zeta.
  rewrite Hprobe. cbn [fst snd]. rewrite Hdir.
  rewrite (reply_text_rejected _ _ _ _ Hreject).
  rewrite (reply_text_delivered _ _ _ (Htel _)).
  cbn [fst snd TelegramBot.sent TelegramBot.user_data TelegramBot.calls
       TelegramBot.files].
  split; [reflexivity|]. split; [now rewrite <- app_assoc|].
  split; [apply dict_get_set_same|].
  intros Hopen. unfold save_scan_report. rewrite Hopen. cbn [snd].
  apply dict_get_set_same.
Qed.

End BotProperties.

(* ------------------------------------------------------------------ *)
(** * Further runs on concrete inputs *)
(* ------------------------------------------------------------------ *)

Lemma analyze_contract_unlisted_chain_witness :
  source_url ascii_lower "0xdAC17F958D2ee523a2206206994597C13D831ec7" "arbitrum"
  = "https://eth.blockscout.com/api?module=contract&action=getsourcecode&address="
    ++ "0xdAC17F958D2ee523a2206206994597C13D831ec7"
  /\ get_contract_source ascii_lower (always (verified_reply "hello"))
       "0xdAC17F958D2ee523a2206206994597C13D831ec7" "arbitrum"
     = get_contract_source ascii_lower (always (verified_reply "hello"))
         "0xdAC17F958D2ee523a2206206994597C13D831ec7" "ethereum"
  /\ analyze_contract ascii_lower (always (verified_reply "hello"))
       "0xdAC17F958D2ee523a2206206994597C13D831ec7" "arbitrum"
     = analyze_contract ascii_lower (always (verified_reply "hello"))
         "0xdAC17F958D2ee523a2206206994597C13D831ec7" "ethereum".
Proof.
  apply (analyze_contract_unlisted_chain ascii_lower
           (always (verified_reply "hello"))
           "0xdAC17F958D2ee523a2206206994597C13D831ec7" "arbitrum");
    [reflexivity|..]; intros H; vm_compute in H; discriminate H.
Defined.

Lemma get_contract_source_raises_witness :
  (exists data,
      always (Returned (JInt 502))
        (source_url ascii_lower "0xdAC17F958D2ee523a2206206994597C13D831ec7"
           "ethereum")
      = Returned data
      /\ truthy data = true)
  /\ (TypeError = TypeError \/ TypeError = AttributeError).
Proof.
  apply (get_contract_source_raises ascii_lower (always (Returned (JInt 502)))
           "0xdAC17F958D2ee523a2206206994597C13D831ec7" "ethereum" TypeError).
  reflexivity.
Defined.

Lemma get_contract_source_object_raises_witness :
  get_contract_source ascii_lower
    (always (Returned (JDict [("result",
                               JList [JStr "Contract source code not verified"])])))
    "0xdAC17F958D2ee523a2206206994597C13D831ec7" "ethereum"
  = Raised AttributeError
  <-> AttributeError = AttributeError
      /\ exists first rest,
           dict_get [("result", JList [JStr "Contract source code not verified"])]
             "result"
           = Some (JList (first :: rest))
           /\ isinstance_dict first = false.
Proof.
  apply (get_contract_source_object_raises ascii_lower
           (always (Returned (JDict [("result",
                                      JList [JStr "Contract source code not verified"])])))
           "0xdAC17F958D2ee523a2206206994597C13D831ec7" "ethereum").
  reflexivity.
Defined.

Lemma analyze_contract_source_not_text_witness :
  truthy (JInt 1) = true
  /\ analyze_contract ascii_lower
       (always (Returned (JDict [("result", JList [JDict [("SourceCode", JInt 1)]])])))
       "0xdAC17F958D2ee523a2206206994597C13D831ec7" "ethereum"
     = Raised AttributeError.
Proof.
  apply (analyze_contract_source_not_text ascii_lower
           (always (Returned (JDict [("result",
                                      JList [JDict [("SourceCode", JInt 1)]])])))
           "0xdAC17F958D2ee523a2206206994597C13D831ec7" "ethereum" (JInt 1));
    reflexivity.
Defined.

Lemma analyze_contract_verified_floor_witness :
  exists (init : list Finding) (n score : Z),
    analyze_contract ascii_lower
      (always (verified_reply "require(tx.origin == owner); function mint() {}"))
      "0xdAC17F958D2ee523a2206206994597C13D831ec7" "ethereum"
    = Returned (init ++ [summary_finding n score (risk_label score)])%list
    /\ 25 <= score <= 100
    /\ 0 <= n <= 3
    /\ (25 <= 100 + impact_sum
                      (matched ascii_lower
                         "require(tx.origin == owner); function mint() {}" checks)
              + (if n =? 0 then 10 else 0) <= 130).
Proof.
  apply (analyze_contract_verified_floor ascii_lower
           (always (verified_reply "require(tx.origin == owner); function mint() {}"))
           "0xdAC17F958D2ee523a2206206994597C13D831ec7" "ethereum"
           "require(tx.origin == owner); function mint() {}");
    [reflexivity|discriminate].
Defined.

Lemma analyze_contract_label_witness :
  let mint := hit ascii_lower "require(tx.origin == owner); function mint() {}"
                "mint" in
  let blacklist := hit ascii_lower "require(tx.origin == owner); function mint() {}"
                     "blacklist" in
  let tx_origin := hit ascii_lower "require(tx.origin == owner); function mint() {}"
                     "tx.origin" in
  let renounce := hit ascii_lower "require(tx.origin == owner); function mint() {}"
                    "renounceOwnership" in
  exists (init : list Finding) (n score : Z),
    analyze_contract ascii_lower
      (always (verified_reply "require(tx.origin == owner); function mint() {}"))
      "0xdAC17F958D2ee523a2206206994597C13D831ec7" "ethereum"
    = Returned (init ++ [summary_finding n score (risk_label score)])%list
    /\ (risk_label score = "🔴 High Risk"
        <-> tx_origin && ((mint && blacklist)
                          || (negb renounce && (mint || blacklist))) = true)
    /\ (risk_label score = "🟢 Low Risk"
        <-> (negb tx_origin && negb (mint && blacklist))
            || (renounce && negb (tx_origin && (mint || blacklist))) = true).
Proof.
  apply (analyze_contract_label ascii_lower
           (always (verified_reply "require(tx.origin == owner); function mint() {}"))
           "0xdAC17F958D2ee523a2206206994597C13D831ec7" "ethereum"
           "require(tx.origin == owner); function mint() {}");
    [reflexivity|discriminate].
Defined.

Lemma analyze_contract_only_owner_neutral_witness :
  exists (init1 init2 : list Finding) (summary : Finding),
    analyze_contract ascii_lower
      (fun url =>
         if str_in "bsc" url then verified_reply "function mint() public {}"
         else verified_reply "function mint() public onlyOwner {}")
      "0xdAC17F958D2ee523a2206206994597C13D831ec7" "ethereum"
    = Returned (init1 ++ [summary])%list
    /\ analyze_contract ascii_lower
         (fun url =>
            if str_in "bsc" url then verified_reply "function mint() public {}"
            else verified_reply "function mint() public onlyOwner {}")
         "0x55d398326f99059fF775485246999027B3197955" "bsc"
       = Returned (init2 ++ [summary])%list
    /\ is_summary summary = true.
Proof.
  apply (analyze_contract_only_owner_neutral ascii_lower
           (fun url =>
              if str_in "bsc" url then verified_reply "function mint() public {}"
              else verified_reply "function mint() public onlyOwner {}")
           "0xdAC17F958D2ee523a2206206994597C13D831ec7" "ethereum"
           "function mint() public onlyOwner {}"
           "0x55d398326f99059fF775485246999027B3197955" "bsc"
           "function mint() public {}");
    [reflexivity|discriminate|reflexivity|discriminate|].
  intros pattern Hin. simpl in Hin.
  destruct Hin as [<-|[<-|[<-|[<-|[]]]]]; reflexivity.
Defined.

Lemma analyze_contract_findings_witness :
  exists (findings : list Finding),
    analyze_contract ascii_lower (always (verified_reply "hello"))
      "0xdAC17F958D2ee523a2206206994597C13D831ec7" "ethereum"
    = Returned findings
    /\ (2 <= List.length findings <= 6)%nat
    /\ Forall (fun f => In (severity f) ["High"; "Medium"; "Low"; "Info"]) findings.
Proof.
  apply (analyze_contract_findings ascii_lower (always (verified_reply "hello"))
           "0xdAC17F958D2ee523a2206206994597C13D831ec7" "ethereum" "hello").
  reflexivity.
Defined.

Lemma save_scan_report_written_witness :
  let run := save_scan_report (Returned tt) opens dump_messages
               "0xdAC17F958D2ee523a2206206994597C13D831ec7" "ethereum"
               [critical_finding; unverified_risk_finding 20]
               "20250101_120000" [] in
  fst run = Returned tt
  /\ dict_get (snd run)
       ("reports/" ++ "ethereum" ++ "_"
        ++ slice_to 6 "0xdAC17F958D2ee523a2206206994597C13D831ec7" ++ "_"
        ++ "20250101_120000" ++ ".json")
     = Some (dump_messages [critical_finding; unverified_risk_finding 20])
  /\ (forall other,
         other <> report_filename "0xdAC17F958D2ee523a2206206994597C13D831ec7"
                    "ethereum" "20250101_120000" ->
         dict_get (snd run) other = dict_get [] other).
Proof.
  apply (save_scan_report_written (Returned tt) opens dump_messages
           "0xdAC17F958D2ee523a2206206994597C13D831ec7" "ethereum"
           "20250101_120000" [critical_finding; unverified_risk_finding 20] []);
    reflexivity.
Defined.

Lemma save_scan_report_collision_witness :
  let files1 := snd (save_scan_report (Returned tt) opens dump_messages
                       "0xdAC17F958D2ee523a2206206994597C13D831ec7" "ethereum"
                       [critical_finding; unverified_risk_finding 20]
                       "20250101_120000" []) in
  let files2 := snd (save_scan_report (Returned tt) opens dump_messages
                       "0xdAC1000000000000000000000000000000000001" "ethereum"
                       [safe_finding] "20250101_120000" files1) in
  report_filename "0xdAC1000000000000000000000000000000000001" "ethereum"
    "20250101_120000"
  = report_filename "0xdAC17F958D2ee523a2206206994597C13D831ec7" "ethereum"
      "20250101_120000"
  /\ dict_get files2
       (report_filename "0xdAC17F958D2ee523a2206206994597C13D831ec7" "ethereum"
          "20250101_120000")
     = Some (dump_messages [safe_finding])
  /\ dict_keys files2 = dict_keys files1
  /\ files2 = snd (save_scan_report (Returned tt) opens dump_messages
                     "0xdAC1000000000000000000000000000000000001" "ethereum"
                     [safe_finding] "20250101_120000" []).
Proof.
  apply (save_scan_report_collision (Returned tt) opens dump_messages
           "0xdAC17F958D2ee523a2206206994597C13D831ec7"
           "0xdAC1000000000000000000000000000000000001" "ethereum"
           "20250101_120000" [critical_finding; unverified_risk_finding 20]
           [safe_finding] []);
    reflexivity.
Defined.

Lemma check_honeypot_and_owner_entries_witness :
  let w3 := (fun _ : string => token_node [Byte.x60; Byte.x80])
              "https://eth.llamarpc.com" in
  fst (check_honeypot_and_owner ascii_lower ascii_title
         "https://eth.llamarpc.com" "https://bsc-dataseed.binance.org"
         (fun _ => token_node [Byte.x60; Byte.x80]) checksummed
         "0xdAC17F958D2ee523a2206206994597C13D831ec7" "ethereum" [])
  = Returned
      [ ("token",
         match name_call w3 "0xdAC17F958D2ee523a2206206994597C13D831ec7",
               symbol_call w3 "0xdAC17F958D2ee523a2206206994597C13D831ec7" with
         | Returned name, Returned symbol => name ++ " (" ++ symbol ++ ")"
         | _, _ => "Unknown Token"
         end);
        ("owner",
         match owner_call w3 "0xdAC17F958D2ee523a2206206994597C13D831ec7" with
         | Returned owner => owner
         | Raised _ => "⚠️ Owner() not found (may use custom access control)."
         end);
        ("transfer_test",
         match all_functions w3 "0xdAC17F958D2ee523a2206206994597C13D831ec7" with
         | Returned fn_names =>
             if existsb (String.eqb "transfer") fn_names
             then "✅ Transfer function exists"
             else "❌ Missing transfer()"
         | Raised _ => "⚠️ Transfer check failed"
         end);
        ("honeypot_risk",
         match all_functions w3 "0xdAC17F958D2ee523a2206206994597C13D831ec7" with
         | Returned fn_names =>
             if existsb (String.eqb "transfer") fn_names
             then "🟢 Transfer function present"
             else "🔴 Possible Honeypot (transfer() missing)"
         | Raised _ => "🔴 Possible Honeypot (transfer() missing)"
         end) ].
Proof.
  apply (check_honeypot_and_owner_entries ascii_lower ascii_title
           "https://eth.llamarpc.com" "https://bsc-dataseed.binance.org"
           (fun _ => token_node [Byte.x60; Byte.x80]) checksummed
           "0xdAC17F958D2ee523a2206206994597C13D831ec7" "ethereum"
           "https://eth.llamarpc.com" "0xdAC17F958D2ee523a2206206994597C13D831ec7"
           Byte.x60 [Byte.x80]);
    first [reflexivity | discriminate].
Defined.

Lemma check_honeypot_and_owner_calls_witness :
  let w3 := (fun _ : string => token_node [Byte.x60; Byte.x80])
              "https://bsc-dataseed.binance.org" in
  snd (check_honeypot_and_owner ascii_lower ascii_title
         "https://eth.llamarpc.com" "https://bsc-dataseed.binance.org"
         (fun _ => token_node [Byte.x60; Byte.x80]) checksummed
         "0x55d398326f99059fF775485246999027B3197955" "BSC" [])
  = ([IsConnected true;
      GetCode "0x55d398326f99059fF775485246999027B3197955"
        (Returned [Byte.x60; Byte.x80]);
      CallName (name_call w3 "0x55d398326f99059fF775485246999027B3197955")]
     ++ match name_call w3 "0x55d398326f99059fF775485246999027B3197955" with
        | Returned _ =>
            [CallSymbol (symbol_call w3 "0x55d398326f99059fF775485246999027B3197955")]
        | Raised _ => []
        end
     ++ [CallOwner (owner_call w3 "0x55d398326f99059fF775485246999027B3197955");
         AllFunctions
           (all_functions w3 "0x55d398326f99059fF775485246999027B3197955")])%list.
Proof.
  apply (check_honeypot_and_owner_calls ascii_lower ascii_title
           "https://eth.llamarpc.com" "https://bsc-dataseed.binance.org"
           (fun _ => token_node [Byte.x60; Byte.x80]) checksummed
           "0x55d398326f99059fF775485246999027B3197955" "BSC"
           "https://bsc-dataseed.binance.org"
           "0x55d398326f99059fF775485246999027B3197955"
           Byte.x60 [Byte.x80]);
    first [reflexivity | discriminate].
Defined.

Lemma check_honeypot_and_owner_invalid_address_witness :
  let run := check_honeypot_and_owner ascii_lower ascii_title
               "https://eth.llamarpc.com" "https://bsc-dataseed.binance.org"
               (fun _ => token_node [Byte.x60; Byte.x80])
               (fun _ => Raised ValueError) "not-an-address" "ethereum" [] in
  (forall c, In c (snd run) -> exists answer, c = IsConnected answer)
  /\ (exists msg, fst run = Returned [("error", msg)])
  /\ (fst run = Returned [("error", "Invalid address format.")]
      <-> snd run = [IsConnected true]).
Proof.
  apply (check_honeypot_and_owner_invalid_address ascii_lower ascii_title
           "https://eth.llamarpc.com" "https://bsc-dataseed.binance.org"
           (fun _ => token_node [Byte.x60; Byte.x80])
           (fun _ => Raised ValueError) "not-an-address" "ethereum" ValueError).
  reflexivity.
Defined.

Lemma main_probes_ethereum_witness :
  let chain := match Some "bsc" with Some c => c | None => "ethereum" end in
  let run := Rugcheck.main ascii_lower ascii_title (always (verified_reply ""))
               "https://eth.llamarpc.com" "https://bsc-dataseed.binance.org"
               (fun _ => token_node []) checksummed (Returned tt) opens
               dump_messages "20250101_120000" Rugcheck.exn_name
               Rugcheck.show_items
               "0x55d398326f99059fF775485246999027B3197955" (Some "bsc")
               {| Rugcheck.calls := []; Rugcheck.files := [] |} in
  Rugcheck.calls (snd run)
  = (Rugcheck.calls {| Rugcheck.calls := []; Rugcheck.files := [] |}
     ++ snd (check_honeypot_and_owner ascii_lower ascii_title
               "https://eth.llamarpc.com" "https://bsc-dataseed.binance.org"
               (fun _ => token_node []) checksummed
               "0x55d398326f99059fF775485246999027B3197955" "ethereum" []))%list
  /\ (Returned tt = Returned tt ->
      opens (report_filename "0x55d398326f99059fF775485246999027B3197955" chain
               "20250101_120000")
      = Returned tt ->
      dict_get (Rugcheck.files (snd run))
        ("reports/" ++ chain ++ "_"
         ++ slice_to 6 "0x55d398326f99059fF775485246999027B3197955" ++ "_"
         ++ "20250101_120000" ++ ".json")
      = Some (dump_messages
                ([critical_finding; unverified_risk_finding 20]
                 ++ [ {| status := "🔗 On-chain";
                         message :=
                           Rugcheck.show_items
                             match
                               fst (check_honeypot_and_owner ascii_lower ascii_title
                                      "https://eth.llamarpc.com"
                                      "https://bsc-dataseed.binance.org"
                                      (fun _ => token_node []) checksummed
                                      "0x55d398326f99059fF775485246999027B3197955"
                                      "ethereum" [])
                             with
                             | Returned onchain_results => onchain_results
                             | Raised e => [("error", Rugcheck.exn_name e)]
                             end;
                         severity := "Info" |} ])%list)).
Proof.
  apply (main_probes_ethereum ascii_lower ascii_title (always (verified_reply ""))
           "https://eth.llamarpc.com" "https://bsc-dataseed.binance.org"
           (fun _ => token_node []) checksummed (Returned tt) opens
           dump_messages "20250101_120000" Rugcheck.exn_name Rugcheck.show_items
           "0x55d398326f99059fF775485246999027B3197955" (Some "bsc")
           {| Rugcheck.calls := []; Rugcheck.files := [] |}
           [critical_finding; unverified_risk_finding 20]).
  reflexivity.
Defined.

Lemma scan_unsupported_chain_witness :
  let run := TelegramBot.scan ascii_lower ascii_title (always (verified_reply ""))
               "https://eth.llamarpc.com" "https://bsc-dataseed.binance.org"
               (fun _ => token_node []) checksummed (Returned tt) opens
               dump_messages "20250101_120000" Rugcheck.exn_name
               TelegramBot.delivers
               ["0x7ceB23fD6bC0adD59E62ac25578270cFf1b9f619"; "Polygon"]
               {| TelegramBot.sent := []; TelegramBot.user_data := [];
                  TelegramBot.calls := []; TelegramBot.files := [] |} in
  run = TelegramBot.reply_text TelegramBot.delivers
          "⚠️ Unsupported chain. Use 'eth' or 'bsc'." None
          {| TelegramBot.sent := []; TelegramBot.user_data := [];
             TelegramBot.calls := []; TelegramBot.files := [] |}
  /\ TelegramBot.user_data (snd run) = []
  /\ TelegramBot.calls (snd run) = []
  /\ TelegramBot.files (snd run) = [].
Proof.
  apply (scan_unsupported_chain ascii_lower ascii_title
           (always (verified_reply ""))
           "https://eth.llamarpc.com" "https://bsc-dataseed.binance.org"
           (fun _ => token_node []) checksummed (Returned tt) opens
           dump_messages "20250101_120000" Rugcheck.exn_name TelegramBot.delivers
           "0x7ceB23fD6bC0adD59E62ac25578270cFf1b9f619" "Polygon" []
           {| TelegramBot.sent := []; TelegramBot.user_data := [];
              TelegramBot.calls := []; TelegramBot.files := [] |}).
  intros H. vm_compute in H.
  destruct H as [H|[H|[H|[H|[]]]]]; discriminate H.
Defined.

Lemma score_unverified_witness :
  TelegramBot.score ascii_lower ascii_title (always (verified_reply ""))
    Rugcheck.exn_name TelegramBot.delivers
    ["0x52908400098527886E0F7030069857D2E4169EE7"; "ETH"]
    {| TelegramBot.sent := []; TelegramBot.user_data := [];
       TelegramBot.calls := []; TelegramBot.files := [] |}
  = (Returned tt,
     {| TelegramBot.sent :=
          ([]
           ++ [ (("📊 Calculating risk score for "
                  ++ "0x52908400098527886E0F7030069857D2E4169EE7" ++ " on "
                  ++ ascii_title (TelegramBot.chain_of_args ascii_lower ["ETH"])
                  ++ "...")%string, None);
                ("✅ No summary.", None) ])%list;
        TelegramBot.user_data := [];
        TelegramBot.calls := [];
        TelegramBot.files := [] |}).
Proof.
  apply (score_unverified ascii_lower ascii_title (always (verified_reply ""))
           Rugcheck.exn_name TelegramBot.delivers
           "0x52908400098527886E0F7030069857D2E4169EE7" ["ETH"]
           {| TelegramBot.sent := []; TelegramBot.user_data := [];
              TelegramBot.calls := []; TelegramBot.files := [] |});
    [intros text parse_mode; reflexivity|reflexivity].
Defined.

Lemma score_verified_witness :
  exists n risk_score,
    TelegramBot.score ascii_lower ascii_title
      (always (verified_reply "function mint(address to) public {}"))
      Rugcheck.exn_name TelegramBot.delivers
      ["0xdAC17F958D2ee523a2206206994597C13D831ec7"]
      {| TelegramBot.sent := []; TelegramBot.user_data := [];
         TelegramBot.calls := []; TelegramBot.files := [] |}
    = (Returned tt,
       {| TelegramBot.sent :=
            ([]
             ++ [ (("📊 Calculating risk score for "
                    ++ "0xdAC17F958D2ee523a2206206994597C13D831ec7" ++ " on "
                    ++ ascii_title (TelegramBot.chain_of_args ascii_lower [])
                    ++ "...")%string, None);
                  (("✅ " ++ "Verified: ✅ | Issues Found: " ++ str_of_int n
                    ++ " | Overall Risk: " ++ str_of_int risk_score
                    ++ "/100 (" ++ risk_label risk_score ++ ")")%string, None) ])%list;
          TelegramBot.user_data := [];
          TelegramBot.calls := [];
          TelegramBot.files := [] |})
    /\ 25 <= risk_score <= 100
    /\ 0 <= n <= 3.
Proof.
  apply (score_verified ascii_lower ascii_title
           (always (verified_reply "function mint(address to) public {}"))
           Rugcheck.exn_name TelegramBot.delivers
           "0xdAC17F958D2ee523a2206206994597C13D831ec7"
           "function mint(address to) public {}" []
           {| TelegramBot.sent := []; TelegramBot.user_data := [];
              TelegramBot.calls := []; TelegramBot.files := [] |});
    [intros text parse_mode; reflexivity|reflexivity|discriminate].
Defined.

Lemma scan_returns_witness :
  let run := TelegramBot.scan ascii_lower ascii_title
               (always (Returned (JInt 502)))
               "https://eth.llamarpc.com" "https://bsc-dataseed.binance.org"
               (fun _ => token_node []) checksummed (Returned tt) opens
               dump_messages "20250101_120000" Rugcheck.exn_name
               TelegramBot.delivers
               ["0xdAC17F958D2ee523a2206206994597C13D831ec7"; "eth"]
               {| TelegramBot.sent := []; TelegramBot.user_data := [];
                  TelegramBot.calls := []; TelegramBot.files := [] |} in
  fst run = Returned tt
  /\ exists replies,
       TelegramBot.sent (snd run) = ([] ++ replies)%list
       /\ (1 <= List.length replies <= 2)%nat.
Proof.
  apply (scan_returns ascii_lower ascii_title (always (Returned (JInt 502)))
           "https://eth.llamarpc.com" "https://bsc-dataseed.binance.org"
           (fun _ => token_node []) checksummed (Returned tt) opens
           dump_messages "20250101_120000" Rugcheck.exn_name TelegramBot.delivers
           ["0xdAC17F958D2ee523a2206206994597C13D831ec7"; "eth"]
           {| TelegramBot.sent := []; TelegramBot.user_data := [];
              TelegramBot.calls := []; TelegramBot.files := [] |}).
  intros text parse_mode. reflexivity.
Defined.

Lemma scan_then_last_witness :
  let chain := TelegramBot.chain_of_args ascii_lower ["ETH"] in
  let reply := TelegramBot.scan_reply ascii_title
                 (TelegramBot.static_summary_of
                    [critical_finding; unverified_risk_finding 20])
                 chain [("error", "No contract code found (EOA address).")] in
  let s1 := snd (TelegramBot.scan ascii_lower ascii_title
                   (always (verified_reply ""))
                   "https://eth.llamarpc.com" "https://bsc-dataseed.binance.org"
                   (fun _ => token_node []) checksummed (Returned tt) opens
                   dump_messages "20250101_120000" Rugcheck.exn_name
                   TelegramBot.delivers
                   ["0x52908400098527886E0F7030069857D2E4169EE7"; "ETH"]
                   {| TelegramBot.sent := []; TelegramBot.user_data := [];
                      TelegramBot.calls := []; TelegramBot.files := [] |}) in
  dict_get (TelegramBot.user_data s1) "last_report"
  = Some {| TelegramBot.address := "0x52908400098527886E0F7030069857D2E4169EE7";
            TelegramBot.chain := chain;
            TelegramBot.summary := reply |}
  /\ TelegramBot.sent s1
     = ([]
        ++ [ (("🔍 Scanning " ++ "0x52908400098527886E0F7030069857D2E4169EE7"
               ++ " on " ++ ascii_title chain ++ "...")%string, None);
             (reply, Some "Markdown") ])%list
  /\ TelegramBot.calls s1
     = ([] ++ [IsConnected true;
               GetCode "0x52908400098527886E0F7030069857D2E4169EE7" (Returned [])])%list
  /\ TelegramBot.last ascii_title TelegramBot.delivers s1
     = (Returned tt,
        {| TelegramBot.sent :=
             (TelegramBot.sent s1
              ++ [ (("📝 *Last Scan Summary*" ++ TelegramBot.nl
                     ++ "Contract: `" ++ "0x52908400098527886E0F7030069857D2E4169EE7"
                     ++ "`" ++ TelegramBot.nl
                     ++ "Chain: " ++ ascii_title chain ++ TelegramBot.nl
                     ++ TelegramBot.nl ++ reply)%string,
                    Some "Markdown") ])%list;
           TelegramBot.user_data := TelegramBot.user_data s1;
           TelegramBot.calls := TelegramBot.calls s1;
           TelegramBot.files := TelegramBot.files s1 |}).
Proof.
  apply (scan_then_last ascii_lower ascii_title (always (verified_reply ""))
           "https://eth.llamarpc.com" "https://bsc-dataseed.binance.org"
           (fun _ => token_node []) checksummed (Returned tt) opens
           dump_messages "20250101_120000" Rugcheck.exn_name TelegramBot.delivers
           "0x52908400098527886E0F7030069857D2E4169EE7" ["ETH"]
           {| TelegramBot.sent := []; TelegramBot.user_data := [];
              TelegramBot.calls := []; TelegramBot.files := [] |}
           [critical_finding; unverified_risk_finding 20]
           [("error", "No contract code found (EOA address).")]
           [IsConnected true;
            GetCode "0x52908400098527886E0F7030069857D2E4169EE7" (Returned [])]);
    [intros text parse_mode; reflexivity|reflexivity..].
Defined.

Lemma scan_failure_keeps_last_report_witness :
  let s1 := snd (TelegramBot.scan ascii_lower ascii_title
                   (always (Returned (JInt 502)))
                   "https://eth.llamarpc.com" "https://bsc-dataseed.binance.org"
                   (fun _ => token_node []) checksummed (Returned tt) opens
                   dump_messages "20250101_120000" Rugcheck.exn_name
                   TelegramBot.delivers
                   ["0xdAC17F958D2ee523a2206206994597C13D831ec7"; "eth"]
                   {| TelegramBot.sent := []; TelegramBot.user_data := [];
                      TelegramBot.calls := []; TelegramBot.files := [] |}) in
  TelegramBot.user_data s1 = []
  /\ TelegramBot.files s1 = []
  /\ TelegramBot.sent s1
     = ([]
        ++ [ (("🔍 Scanning " ++ "0xdAC17F958D2ee523a2206206994597C13D831ec7"
               ++ " on "
               ++ ascii_title (TelegramBot.chain_of_args ascii_lower ["eth"])
               ++ "...")%string, None);
             (("❌ Scan failed: " ++ Rugcheck.exn_name TypeError)%string, None) ])%list
  /\ fst (TelegramBot.last ascii_title TelegramBot.delivers s1)
     = fst (TelegramBot.last ascii_title TelegramBot.delivers
              {| TelegramBot.sent := []; TelegramBot.user_data := [];
                 TelegramBot.calls := []; TelegramBot.files := [] |})
  /\ exists text,
       TelegramBot.sent (snd (TelegramBot.last ascii_title TelegramBot.delivers s1))
       = (TelegramBot.sent s1 ++ [text])%list
       /\ TelegramBot.sent
            (snd (TelegramBot.last ascii_title TelegramBot.delivers
                    {| TelegramBot.sent := []; TelegramBot.user_data := [];
                       TelegramBot.calls := []; TelegramBot.files := [] |}))
          = ([] ++ [text])%list.
Proof.
  apply (scan_failure_keeps_last_report ascii_lower ascii_title
           (always (Returned (JInt 502)))
           "https://eth.llamarpc.com" "https://bsc-dataseed.binance.org"
           (fun _ => token_node []) checksummed (Returned tt) opens
           dump_messages "20250101_120000" Rugcheck.exn_name TelegramBot.delivers
           "0xdAC17F958D2ee523a2206206994597C13D831ec7" ["eth"]
           {| TelegramBot.sent := []; TelegramBot.user_data := [];
              TelegramBot.calls := []; TelegramBot.files := [] |} TypeError);
    [intros text parse_mode; reflexivity|reflexivity|left; reflexivity].
Defined.

Lemma scan_reply_rejected_witness :
  let telegram := fun (text : string) (parse_mode : option string) =>
                    match parse_mode with
                    | Some _ => Raised RequestException
                    | None => Returned tt
                    end in
  let chain := TelegramBot.chain_of_args ascii_lower ["bnb"] in
  let reply := TelegramBot.scan_reply ascii_title
                 (TelegramBot.static_summary_of
                    [critical_finding; unverified_risk_finding 20])
                 chain [("error", "No contract code found (EOA address).")] in
  let run := TelegramBot.scan ascii_lower ascii_title
               (always (verified_reply ""))
               "https://eth.llamarpc.com" "https://bsc-dataseed.binance.org"
               (fun _ => token_node []) checksummed (Returned tt) opens
               dump_messages "20250101_120000" Rugcheck.exn_name telegram
               ["0x55d398326f99059fF775485246999027B3197955"; "bnb"]
               {| TelegramBot.sent := []; TelegramBot.user_data := [];
                  TelegramBot.calls := []; TelegramBot.files := [] |} in
  fst run = Returned tt
  /\ TelegramBot.sent (snd run)
     = ([]
        ++ [ (("🔍 Scanning " ++ "0x55d398326f99059fF775485246999027B3197955"
               ++ " on " ++ ascii_title chain ++ "...")%string, None);
             (("❌ Scan failed: " ++ Rugcheck.exn_name RequestException)%string,
              None) ])%list
  /\ dict_get (TelegramBot.user_data (snd run)) "last_report"
     = Some {| TelegramBot.address := "0x55d398326f99059fF775485246999027B3197955";
               TelegramBot.chain := chain;
               TelegramBot.summary := reply |}
  /\ (opens (report_filename "0x55d398326f99059fF775485246999027B3197955" chain
               "20250101_120000")
      = Returned tt ->
      dict_get (TelegramBot.files (snd run))
        (report_filename "0x55d398326f99059fF775485246999027B3197955" chain
           "20250101_120000")
      = Some (dump_messages [critical_finding; unverified_risk_finding 20])).
Proof.
  apply (scan_reply_rejected ascii_lower ascii_title (always (verified_reply ""))
           "https://eth.llamarpc.com" "https://bsc-dataseed.binance.org"
           (fun _ => token_node []) checksummed (Returned tt) opens
           dump_messages "20250101_120000" Rugcheck.exn_name
           (fun (text : string) (parse_mode : option string) =>
              match parse_mode with
              | Some _ => Raised RequestException
              | None => Returned tt
              end)
           "0x55d398326f99059fF775485246999027B3197955" ["bnb"]
           {| TelegramBot.sent := []; TelegramBot.user_data := [];
              TelegramBot.calls := []; TelegramBot.files := [] |}
           [critical_finding; unverified_risk_finding 20]
           [("error", "No contract code found (EOA address).")]
           [IsConnected true;
            GetCode "0x55d398326f99059fF775485246999027B3197955" (Returned [])]
           RequestException);
    [intros text; reflexivity|reflexivity..].
Defined.
